(** * OpenLANE platform of Amaranth: build-plan generation

    A shallow embedding of [amaranth/vendor/openlane.py] and the properties
    of its build-plan engine: design-name validation, override resolution,
    the escaping filters, command assembly, the toolchain profiles, the
    build plan and the synthesis of a missing clock/reset domain.

    Python strings are sequences of Unicode code points; a code point is a
    number of type [N].  Dictionaries that are only looked up are [gmap]s,
    dictionaries whose insertion order is observable are association lists.
    Code that mutates the platform or the port list is written in a state
    and exception monad over the objects it touches. *)

From Stdlib Require Import NArith ZArith List Ascii String.
From Stdlib Require Import HexadecimalString HexadecimalN.
From Stdlib Require DecimalString.
From stdpp Require Import base option list gmap.
Import ListNotations.

Local Open Scope N_scope.

(** ** Python strings *)

Definition char := N.
Definition pystr := list char.

Definition chr (a : ascii) : char := N_of_ascii a.

(** A literal of the source, written as a Rocq string. *)
Definition lit (s : string) : pystr := map N_of_ascii (list_ascii_of_string s).

Definition NEWLINE : char := 10.
Definition SPACE : char := 32.
Definition DQUOTE : char := 34.
Definition DOLLAR : char := 36.
Definition LBRACKET : char := 91.
Definition BACKSLASH : char := 92.
Definition UNDERSCORE : char := 95.
Definition LBRACE : char := 123.
Definition RBRACE : char := 125.

Definition in_range (lo hi c : char) : bool := (lo <=? c) && (c <=? hi).

(** [str.isspace] on one code point, which is also the class [\s] of a
    [str] pattern. *)
Definition isspace (c : char) : bool :=
  in_range 9 13 c || in_range 28 32 c || (c =? 133) || (c =? 160)
  || (c =? 5760) || in_range 8192 8202 c || (c =? 8232) || (c =? 8233)
  || (c =? 8239) || (c =? 8287) || (c =? 12288).

Fixpoint lstrip (s : pystr) : pystr :=
  match s with
  | c :: s' => if isspace c then lstrip s' else s
  | [] => []
  end.

Definition rstrip (s : pystr) : pystr := rev (lstrip (rev s)).

(** [s.strip()] *)
Definition strip (s : pystr) : pystr := lstrip (rstrip s).

(** [sep.join(parts)] *)
Fixpoint join (sep : pystr) (parts : list pystr) : pystr :=
  match parts with
  | [] => []
  | [p] => p
  | p :: rest => p ++ sep ++ join sep rest
  end.

(** [s.split("\n")]: the pieces between newline characters. *)
Fixpoint split_lines (s : pystr) : list pystr :=
  match s with
  | [] => [[]]
  | c :: s' =>
      if c =? NEWLINE then [] :: split_lines s'
      else match split_lines s' with
           | l :: ls => (c :: l) :: ls
           | [] => [[c]]
           end
  end.

Definition line_count (s : pystr) : nat := length (split_lines s).

(** [s.endswith(suffix)] *)
Definition endswith (s suffix : pystr) : bool :=
  bool_decide (drop (length s - length suffix) s = suffix).

(** ** The fragment of Python's [re] the platform uses

    Patterns are kept as syntax and run by a backtracking matcher, the way
    [re] runs them: alternatives are tried left to right, [+] is greedy,
    [^] matches at position 0, [$] at the end of the subject or just before
    a newline that ends it, [.] matches anything but a newline. *)

Module Re.

Inductive item :=
| Ch (c : char)
| Rg (lo hi : char).

Inductive atom :=
| Lit (c : char)
| In_ (items : list item)
| NotIn (items : list item)
| Space
| Dot.

Inductive regex :=
| One (a : atom)
| Many1 (a : atom)
| Bol
| Eol
| Seq (r1 r2 : regex)
| Alt (r1 r2 : regex)
| Group (n : nat) (r : regex).

Definition item_ok (i : item) (c : char) : bool :=
  match i with
  | Ch d => c =? d
  | Rg lo hi => in_range lo hi c
  end.

Definition atom_ok (a : atom) (c : char) : bool :=
  match a with
  | Lit d => c =? d
  | In_ items => existsb (fun i => item_ok i c) items
  | NotIn items => negb (existsb (fun i => item_ok i c) items)
  | Space => isspace c
  | Dot => negb (c =? NEWLINE)
  end.

Record mtch := Mtch {
  m_start : nat;
  m_end : nat;
  m_groups : gmap nat pystr
}.

Definition cont := nat -> pystr -> gmap nat pystr -> option mtch.

Definition at_eol (s : pystr) : bool :=
  match s with
  | [] => true
  | [c] => c =? NEWLINE
  | _ => false
  end.

(** The rest of a greedy [a+] after its first character: as many more
    characters as match, giving back one at a time when the rest of the
    pattern fails. *)
Fixpoint many (a : atom) (pos : nat) (s : pystr) (g : gmap nat pystr)
    (k : cont) : option mtch :=
  match s with
  | c :: s' =>
      if atom_ok a c then
        match many a (S pos) s' g k with
        | Some m => Some m
        | None => k pos s g
        end
      else k pos s g
  | [] => k pos s g
  end.

(** [run r pos s g k]: match [r] at position [pos], where [s] is the
    subject from [pos] on, then continue with [k]. *)
Fixpoint run (r : regex) (pos : nat) (s : pystr) (g : gmap nat pystr)
    (k : cont) : option mtch :=
  match r with
  | One a =>
      match s with
      | c :: s' => if atom_ok a c then k (S pos) s' g else None
      | [] => None
      end
  | Many1 a =>
      match s with
      | c :: s' => if atom_ok a c then many a (S pos) s' g k else None
      | [] => None
      end
  | Bol => if Nat.eqb pos 0 then k pos s g else None
  | Eol => if at_eol s then k pos s g else None
  | Seq r1 r2 => run r1 pos s g (fun pos' s' g' => run r2 pos' s' g' k)
  | Alt r1 r2 =>
      match run r1 pos s g k with
      | Some m => Some m
      | None => run r2 pos s g k
      end
  | Group n r' =>
      run r' pos s g
        (fun pos' s' g' => k pos' s' (<[n := take (pos' - pos) s]> g'))
  end.

(** A match that starts exactly at [pos]. *)
Definition match_at (r : regex) (pos : nat) (s : pystr) : option mtch :=
  run r pos s ∅ (fun pos' _ g => Some (Mtch pos pos' g)).

(** [re.match(r, s)]: a match at the beginning of [s] only. *)
Definition match_ (r : regex) (s : pystr) : option mtch := match_at r 0 s.

(** [m.group(0)] *)
Definition group0 (subject : pystr) (m : mtch) : pystr :=
  take (m_end m - m_start m) (drop (m_start m) subject).

(** [m.group(n)] for [n > 0]: [None] when the group took no part. *)
Definition group (n : nat) (m : mtch) : option pystr := m_groups m !! n.

(** The non-overlapping matches from left to right.  [skip] counts the
    characters of the last match that are still to be passed over. *)
Fixpoint finditer_from (r : regex) (pos skip : nat) (s : pystr) : list mtch :=
  match s with
  | [] =>
      match skip with
      | O => match match_at r pos [] with Some m => [m] | None => [] end
      | S _ => []
      end
  | _ :: s' =>
      match skip with
      | S n => finditer_from r (S pos) n s'
      | O =>
          match match_at r pos s with
          | Some m => m :: finditer_from r (S pos) (m_end m - pos - 1) s'
          | None => finditer_from r (S pos) 0 s'
          end
      end
  end.

(** [re.finditer(r, s)] *)
Definition finditer (r : regex) (s : pystr) : list mtch := finditer_from r 0 0 s.

(** A replacement template: literal characters and group references. *)
Inductive titem :=
| TLit (c : char)
| TGroup (n : nat).

(** A group that took no part expands to the empty string. *)
Definition expand (tpl : list titem) (m : mtch) : pystr :=
  flat_map (fun t =>
    match t with
    | TLit c => [c]
    | TGroup n => default [] (group n m)
    end) tpl.

Definition expand_groups (tpl : list titem) (g : gmap nat pystr) : pystr :=
  expand tpl (Mtch 0 0 g).

Fixpoint sub_from (r : regex) (tpl : list titem) (pos skip : nat) (s : pystr)
    : pystr :=
  match s with
  | [] =>
      match skip with
      | O => match match_at r pos [] with Some m => expand tpl m | None => [] end
      | S _ => []
      end
  | c :: s' =>
      match skip with
      | S n => sub_from r tpl (S pos) n s'
      | O =>
          match match_at r pos s with
          | Some m =>
              if Nat.eqb (m_end m) pos
              then expand tpl m ++ c :: sub_from r tpl (S pos) 0 s'
              else expand tpl m ++ sub_from r tpl (S pos) (m_end m - pos - 1) s'
          | None => c :: sub_from r tpl (S pos) 0 s'
          end
      end
  end.

(** [re.sub(r, tpl, s)] *)
Definition sub (r : regex) (tpl : list titem) (s : pystr) : pystr :=
  sub_from r tpl 0 0 s.

End Re.

(** ** Values, exceptions and results *)

(** The values that options and template filters handle.  [VObj] is any
    object that is neither a [str] nor an undefined marker (a number, a
    list, [None], ...), known by what [str()] and [bool()] give for it. *)
Inductive pyval :=
| VStr (s : pystr)
| VMarkup (s : pystr)
| VUndefined (name : pystr)
| VObj (text : pystr) (truth : bool).

(** [isinstance(v, str)]: [Markup] is a subclass of [str]. *)
Definition is_str (v : pyval) : bool :=
  match v with
  | VStr _ | VMarkup _ => true
  | _ => false
  end.

(** [isinstance(v, Markup)] *)
Definition is_markup (v : pyval) : bool :=
  match v with
  | VMarkup _ => true
  | _ => false
  end.

(** [str(v)]; an undefined marker of the lenient kind prints as nothing. *)
Definition py_str (v : pyval) : pystr :=
  match v with
  | VStr s | VMarkup s | VObj s _ => s
  | VUndefined _ => []
  end.

(** [bool(v)]; the lenient undefined marker is false. *)
Definition truthy (v : pyval) : bool :=
  match v with
  | VStr s | VMarkup s => negb (bool_decide (s = []))
  | VUndefined _ => false
  | VObj _ truth => truth
  end.

Inductive exn :=
| ValueError_design_name (name invalid_char : pystr)
| AssertionError
| AttributeError
| IndexError
| KeyError
| TypeError
| ExternalError (msg : pystr).

Inductive result (A : Type) :=
| Ok (a : A)
| Raise (e : exn).
Arguments Ok {A} a.
Arguments Raise {A} e.

Definition rbind {A B} (r : result A) (k : A -> result B) : result B :=
  match r with
  | Ok a => k a
  | Raise e => Raise e
  end.

Notation "x <~ r ;; k" := (rbind r (fun x => k))
  (at level 62, r at next level, right associativity).

Fixpoint rmap {A B} (f : A -> result B) (l : list A) : result (list B) :=
  match l with
  | [] => Ok []
  | x :: l' =>
      y <~ f x ;;
      ys <~ rmap f l' ;;
      Ok (y :: ys)
  end.

Definition is_ok {A} (r : result A) : bool :=
  match r with
  | Ok _ => true
  | Raise _ => false
  end.

(** ** Design-name validation ([prepare], lines 220-224) *)

Definition word_items : list Re.item :=
  [Re.Rg (chr "A") (chr "Z"); Re.Rg (chr "a") (chr "z");
   Re.Rg (chr "0") (chr "9"); Re.Ch UNDERSCORE].

(** [[A-Za-z0-9_]] on one code point. *)
Definition is_word (c : char) : bool := Re.atom_ok (Re.In_ word_items) c.

Definition check_design_name (name : pystr) : result unit :=
  let invalid_char := Re.match_ (Re.One (Re.NotIn word_items)) name in
  match invalid_char with
  | Some m => Raise (ValueError_design_name name (Re.group0 name m))
  | None => Ok tt
  end.

(** ** Override resolution ([get_override], lines 280-294) *)

Section Override.

(** [textwrap.dedent] of the Python library. *)
Variable dedent : pystr -> pystr.

Variable environ : gmap pystr pystr.
Variable kwargs : gmap pystr pyval.

Definition empty_quotes : Re.regex :=
  Re.Seq Re.Bol
    (Re.Seq (Re.One (Re.Lit DQUOTE)) (Re.Seq (Re.One (Re.Lit DQUOTE)) Re.Eol)).

Definition get_override (var : pystr) : pyval :=
  let var_env := lit "AMARANTH_ENV_" ++ var in
  match environ !! var_env with
  | Some value => VStr (Re.sub empty_quotes [] value)
  | None =>
      match kwargs !! var with
      | Some v => if is_str v then VStr (strip (dedent (py_str v))) else v
      | None => VUndefined var
      end
  end.

Definition verbose (arg : pyval) : pyval :=
  if truthy (get_override (lit "verbose")) then arg
  else VUndefined (lit "quiet").

Definition quiet (arg : pyval) : pyval :=
  if truthy (get_override (lit "verbose")) then VUndefined (lit "quiet")
  else arg.

End Override.

(** ** Escaping filters (lines 306-335) *)

(** [options]: a string as it is, a sequence of strings joined by spaces. *)
Definition options (opts : pystr + list pystr) : pystr :=
  match opts with
  | inl s => s
  | inr l => join [SPACE] l
  end.

(** ["{:02x}".format(n)] *)
Definition format_02x (n : N) : pystr :=
  let digits := lit (HexadecimalString.NilZero.string_of_uint (N.to_hex_uint n)) in
  replicate (2 - length digits) (chr "0") ++ digits.

Definition escape_one (m : Re.mtch) : result pystr :=
  match Re.group 1 m with
  | None =>
      match Re.group 2 m with
      | Some g2 => Ok g2
      | None => Raise TypeError
      end
  | Some g1 =>
      match g1 with
      | c :: _ => Ok ([UNDERSCORE] ++ format_02x c ++ [UNDERSCORE])
      | [] => Raise IndexError
      end
  end.

Definition ascii_pattern : Re.regex :=
  Re.Alt (Re.Group 1 (Re.One (Re.NotIn word_items))) (Re.Group 2 (Re.One Re.Dot)).

Definition ascii_escape (string : pystr) : result pystr :=
  parts <~ rmap escape_one (Re.finditer ascii_pattern string) ;;
  Ok (concat parts).

Definition tcl_escape_pattern : Re.regex :=
  Re.Group 1 (Re.One (Re.In_ [Re.Ch LBRACE; Re.Ch RBRACE; Re.Ch BACKSLASH])).

Definition tcl_quote_pattern : Re.regex :=
  Re.Group 1 (Re.One (Re.In_ [Re.Ch DOLLAR; Re.Ch LBRACKET; Re.Ch BACKSLASH])).

(** The replacement [r"\\\1"]: a backslash, then group 1. *)
Definition backslash_group1 : list Re.titem := [Re.TLit BACKSLASH; Re.TGroup 1].

Definition tcl_escape (string : pyval) : pyval :=
  if is_markup string then string
  else
    let string := py_str string in
    VStr ([LBRACE] ++ Re.sub tcl_escape_pattern backslash_group1 string ++ [RBRACE]).

Definition tcl_quote (string : pyval) : pyval :=
  if is_markup string then string
  else
    let string := py_str string in
    VStr ([DQUOTE] ++ Re.sub tcl_quote_pattern backslash_group1 string ++ [DQUOTE]).

(** ** Hardware objects and the build plan *)

(** Modelled from the spec: the hardware description library is not part of
    this file's source.  A signal is known by its name; a pin is the record
    of its field signals ([i], [o], ...); a module collects the clock
    domains, combinatorial statements and named submodules added to it. *)
Record Signal := { sig_name : pystr }.

Record Pin := { pin_fields : list (pystr * Signal) }.

Record ClockDomain := { cd_name : pystr }.

(** [ClockSignal(domain).eq(rhs)] *)
Record ClockAssign := { ca_domain : pystr; ca_rhs : Signal }.

(** [ResetSynchronizer(arst, domain=domain)] *)
Record ResetSynchronizer := { rs_arst : Signal; rs_domain : pystr }.

Record Module := {
  m_domains : list ClockDomain;
  m_comb : list ClockAssign;
  m_submodules : list (pystr * ResetSynchronizer)
}.

Global Instance Signal_eq_dec : EqDecision Signal.
Proof. solve_decision. Defined.

(** [d[k]] on a dictionary kept in insertion order. *)
Fixpoint dict_get {V} (k : pystr) (d : list (pystr * V)) : option V :=
  match d with
  | [] => None
  | (k', v) :: d' => if decide (k = k') then Some v else dict_get k d'
  end.

(** [d[k] = v]: an existing key keeps its place, a new key goes last. *)
Fixpoint dict_set {V} (k : pystr) (v : V) (d : list (pystr * V)) : list (pystr * V) :=
  match d with
  | [] => [(k, v)]
  | (k', v') :: d' =>
      if decide (k = k') then (k, v) :: d' else (k', v') :: dict_set k v d'
  end.

(** A dictionary display [{**base, k1: v1, ...}]: the keys are set one
    after the other. *)
Definition dict_of_items {V} (items : list (pystr * V)) : list (pystr * V) :=
  fold_left (fun d kv => dict_set kv.1 kv.2 d) items [].

Definition keys {V} (d : list (pystr * V)) : list pystr := map fst d.

(** Modelled from the spec: [BuildPlan] of the build runner is not part of
    this file's source.  The plan is an ordered list of (filename, content)
    pairs with an entry-script name, and no two entries share a filename:
    adding a filename that the plan already holds fails. *)
Record BuildPlan := { script : pystr; files : list (pystr * pystr) }.

Definition new_plan (script : pystr) : BuildPlan :=
  {| script := script; files := [] |}.

Definition add_file (filename content : pystr) (plan : BuildPlan) : result BuildPlan :=
  if decide (filename ∈ keys (files plan)) then Raise AssertionError
  else Ok {| script := script plan; files := files plan ++ [(filename, content)] |}.

(** ** Templates of the toolchain profiles (lines 57-157) *)

(** A template of the source; the character [`] stands for the double
    quote of the original text. *)
Definition tpl (s : string) : pystr :=
  map (fun c => if c =? chr "`" then DQUOTE else c) (lit s).

Definition build_sh_template : pystr :=
  tpl "
            # {{autogenerated}}
            set -e{{verbose(`x`)}}
            if [ -z `$BASH` ] ; then exec /bin/bash `$0` `$@`; fi
            {{emit_commands(`sh`)}}
        ".

Definition config_tcl_template : pystr :=
  tpl "
            # {{autogenerated}}
            # Design Information
            set ::env(DESIGN_NAME) `{{name}}`
            set ::env(VERILOG_FILES) `/design_{{name}}/{{name}}.v`
            set ::env(SDC_FILE) `/design_{{name}}/{{name}}.sdc`
            {% if platform.default_clk %}
            # Clock Settings
            set ::env(CLOCK_PERIOD) `{{platform.default_clk_constraint.period / 1e-9}}`
            set ::env(CLOCK_PORT) `{{platform._default_clk_name}}`
            set ::env(CLOCK_NET) $::env(CLOCK_PORT)
            {% else %}
            # Disable the clock
            set ::env(CLOCK_TREE_SYNTH) 0
            set ::env(CLOCK_PORT) ``
            {% endif %}
            # PDK Settings
            set ::env(PDK) `{{platform.pdk}}`
            set ::env(STD_CELL_LIBRARY) `{{platform.cell_library}}`

            {% for s, v in platform.flow_settings.items() %}
            set ::env({{s}}) {{v|tcl_escape}}
            {% endfor %}

            # Pull in PDK specific settings
            set filename $::env(DESIGN_DIR)/$::env(PDK)_$::env(STD_CELL_LIBRARY)_config.tcl
            if { [file exists $filename] == 1} {
                source $filename
            }
        ".

Definition verilog_template : pystr :=
  tpl "
            /* {{autogenerated}} */
            {{emit_verilog()}}
        ".

Definition debug_verilog_template : pystr :=
  tpl "
            /* {{autogenerated}} */
            {{emit_debug_verilog()}}
        ".

Definition sdc_template : pystr :=
  tpl "
            # {{autogenerated}}
            {% for net_signal, port_signal, frequency in platform.iter_clock_constraints() -%}
                {% if port_signal is not none -%}
                    create_clock -name {{port_signal.name|tcl_escape}} -period {{1000000000/frequency}} [get_ports {{port_signal.name|tcl_escape}}]
                {% else -%}
                    create_clock -name {{net_signal.name|tcl_escape}} -period {{1000000000/frequency}} [get_nets {{net_signal|hierarchy(`/`)|tcl_escape}}]
                {% endif %}
            {% endfor %}
            {{get_override(`add_constraints`)|default(`# (add_constraints placeholder)`)}}
        ".

Definition docker_command_template : pystr :=
  tpl "
        {{invoke_tool(`docker`)}}
            run
            -it
            --rm
            -v {{get_override(`OpenLANE`)|default(platform.openlane_root)}}:/openLANE_flow
            -v {{get_override(`PDKPath`)|default(platform.pdk_path)}}:/PDK
            -v /tmp/{{platform._build_dir}}:/design_{{name}}
            -e PDK_ROOT=/PDK
            -u {{getuid()}}:{{getgid()}}
            efabless/openlane:{{get_override(`openlane_version`)|default(`latest`)}}
            sh -c `./flow.tcl -design /design_{{name}}`
        ".

Definition local_command_template : pystr :=
  tpl "s
            sh -c {{get_override(`OpenLANE`)|default(platform.openlane_root)}}/flow.tcl -design {{name}}
        ".

Definition _container_required_tools : list pystr := [lit "docker"].

Definition _container_command_templates : list pystr := [docker_command_template].

Definition _local_required_tools : list pystr := [].

Definition _local_command_templates : list pystr := [local_command_template].

Section Templates.

(** [TemplatedPlatform.build_script_templates], declared in the build
    package. *)
Variable build_script_templates : list (pystr * pystr).

Definition _common_file_templates : list (pystr * pystr) :=
  dict_of_items (build_script_templates ++
    [ (lit "build_{{name}}.sh", build_sh_template);
      (lit "config.tcl", config_tcl_template);
      (lit "{{name}}.v", verilog_template);
      (lit "{{name}}.debug.v", debug_verilog_template);
      (lit "{{name}}.sdc", sdc_template) ]).

Definition _container_file_templates : list (pystr * pystr) :=
  dict_of_items _common_file_templates.

Definition _local_file_templates : list (pystr * pystr) :=
  dict_of_items _common_file_templates.

End Templates.

(** ** The platform object and the generation run *)

(** [str(n)] for a natural number. *)
Definition str_of_nat (n : nat) : pystr :=
  lit (DecimalString.NilZero.string_of_uint (Nat.to_uint n)).

(** [enumerate(l)] *)
Definition enumerate {A} (l : list A) : list (nat * A) := imap (fun i x => (i, x)) l.

Fixpoint rfold {A B} (f : B -> A -> result B) (l : list A) (b : B) : result B :=
  match l with
  | [] => Ok b
  | x :: l' => b' <~ f b x ;; rfold f l' b'
  end.

(** [Module()] and the three ways the platform adds to it. *)
Definition new_module : Module :=
  {| m_domains := []; m_comb := []; m_submodules := [] |}.

Definition add_domain (d : ClockDomain) (m : Module) : Module :=
  {| m_domains := m_domains m ++ [d]; m_comb := m_comb m;
     m_submodules := m_submodules m |}.

Definition add_comb (a : ClockAssign) (m : Module) : Module :=
  {| m_domains := m_domains m; m_comb := m_comb m ++ [a];
     m_submodules := m_submodules m |}.

Definition add_submodule (name : pystr) (s : ResetSynchronizer) (m : Module) : Module :=
  {| m_domains := m_domains m; m_comb := m_comb m;
     m_submodules := dict_set name s (m_submodules m) |}.

(** [pin.i]: the input signal of a pin, if it has one. *)
Definition pin_i (pin : Pin) : result Signal :=
  match dict_get (lit "i") (pin_fields pin) with
  | Some s => Ok s
  | None => Raise AttributeError
  end.

(** The name map of the netlist conversion, as the platform stores it. *)
Definition NameMap := list (Signal * list pystr).

Section Platform.

(** The resource manager of the build package, which the platform
    inherits: its state, [request], and the pins of [self._ports]. *)
Variable RM : Type.
Variable request : pystr -> RM -> result Pin * RM.
Variable port_pins : RM -> list Pin.

Record Platform := {
  toolchain : option pystr;
  default_clk : option pystr;
  default_rst : option pystr;
  _build_dir : pystr;
  _name_map : option NameMap;
  extra_files : list (pystr * pystr);
  resources : RM
}.

Definition set_toolchain (t : pystr) (p : Platform) : Platform :=
  {| toolchain := Some t; default_clk := default_clk p;
     default_rst := default_rst p; _build_dir := _build_dir p;
     _name_map := _name_map p; extra_files := extra_files p;
     resources := resources p |}.

Definition set_default_rst (r : pystr) (p : Platform) : Platform :=
  {| toolchain := toolchain p; default_clk := default_clk p;
     default_rst := Some r; _build_dir := _build_dir p;
     _name_map := _name_map p; extra_files := extra_files p;
     resources := resources p |}.

Definition set_name_map (nm : NameMap) (p : Platform) : Platform :=
  {| toolchain := toolchain p; default_clk := default_clk p;
     default_rst := default_rst p; _build_dir := _build_dir p;
     _name_map := Some nm; extra_files := extra_files p;
     resources := resources p |}.

Definition set_resources (rm : RM) (p : Platform) : Platform :=
  {| toolchain := toolchain p; default_clk := default_clk p;
     default_rst := default_rst p; _build_dir := _build_dir p;
     _name_map := _name_map p; extra_files := extra_files p;
     resources := rm |}.

(** [OpenLANEPlatform.__init__] (lines 159-163); [base] is the object as
    [super().__init__()] leaves it. *)
Definition __init__ (base : Platform) (toolchain : pystr) : result Platform :=
  if decide (toolchain ∈ [lit "Docker"; lit "Local"])
  then Ok (set_toolchain toolchain base)
  else Raise AssertionError.

Definition required_tools (self : Platform) : result (list pystr) :=
  if decide (toolchain self = Some (lit "Docker")) then Ok _container_required_tools
  else if decide (toolchain self = Some (lit "Local")) then Ok _local_required_tools
  else Raise AssertionError.

Definition command_templates (self : Platform) : result (list pystr) :=
  if decide (toolchain self = Some (lit "Docker")) then Ok _container_command_templates
  else if decide (toolchain self = Some (lit "Local")) then Ok _local_command_templates
  else Raise AssertionError.

Variable build_script_templates : list (pystr * pystr).

Definition file_templates (self : Platform) : result (list (pystr * pystr)) :=
  if decide (toolchain self = Some (lit "Docker"))
  then Ok (_container_file_templates build_script_templates)
  else if decide (toolchain self = Some (lit "Local"))
  then Ok (_local_file_templates build_script_templates)
  else Raise AssertionError.

(** *** The objects a generation run touches

    [self] is the platform, [ports] the list passed as [kwargs['ports']]
    (one list, shared with the caller and with the missing-domain
    callback), [environ] the process environment. *)
Record World := {
  self : Platform;
  ports : list Signal;
  environ : gmap pystr pystr
}.

Definition M (A : Type) : Type := World -> result A * World.

Definition ret {A} (a : A) : M A := fun w => (Ok a, w).

Definition raise {A} (e : exn) : M A := fun w => (Raise e, w).

Definition bind {A B} (m : M A) (k : A -> M B) : M B :=
  fun w =>
    match m w with
    | (Ok a, w') => k a w'
    | (Raise e, w') => (Raise e, w')
    end.

Definition lift {A} (r : result A) : M A := fun w => (r, w).

Definition get : M World := fun w => (Ok w, w).

Definition assert_ (b : bool) : M unit :=
  if b then ret tt else raise AssertionError.

Definition update_self (f : Platform -> Platform) : M unit :=
  fun w => (Ok tt, {| self := f (self w); ports := ports w; environ := environ w |}).

(** [ports.append(s)] and a run of appends. *)
Definition ports_extend (l : list Signal) : M unit :=
  fun w => (Ok tt, {| self := self w; ports := ports w ++ l; environ := environ w |}).

Definition ports_append (s : Signal) : M unit := ports_extend [s].

(** [self.request(name)] *)
Definition self_request (name : pystr) : M Pin :=
  fun w =>
    let (r, rm) := request name (resources (self w)) in
    (r, {| self := set_resources rm (self w); ports := ports w;
           environ := environ w |}).

Notation "x <- m ;; k" := (bind m (fun x => k))
  (at level 62, m at next level, right associativity).

(** *** Synthesis of a missing domain (lines 387-407)

    [create_missing_domain(ports)] returns the callback [create_domain];
    [ports] is the list of the world. *)
Definition create_missing_domain : pystr -> M (option Module) :=
  fun name =>
    w <- get ;;
    match (if decide (name = lit "sync") then default_clk (self w) else None) with
    | Some clk =>
        pin <- self_request clk ;;
        clk_i <- lift (pin_i pin) ;;
        _ <- ports_append clk_i ;;
        let m := new_module in
        w <- get ;;
        rst_i <-
          match default_rst (self w) with
          | Some rst =>
              pin <- self_request rst ;;
              lift (pin_i pin)
          | None =>
              w <- get ;;
              _ <- assert_ (negb (bool_decide (lit "rst" ∈ map sig_name (ports w)))) ;;
              let rst_i := {| sig_name := lit "rst" |} in
              _ <- ports_append rst_i ;;
              _ <- update_self (set_default_rst (lit "rst")) ;;
              ret rst_i
          end ;;
        let m := add_domain {| cd_name := lit "sync" |} m in
        let m := add_comb {| ca_domain := lit "sync"; ca_rhs := clk_i |} m in
        let m := add_submodule (lit "reset_sync")
                   {| rs_arst := rst_i; rs_domain := lit "sync" |} m in
        ret (Some m)
    | None => ret None
    end.

(** *** Rendering and command assembly (lines 252-278, 349-377) *)

(** What the helpers bound in a template's context are made of. *)
Record RenderContext := {
  ctx_name : pystr;
  ctx_platform : Platform;
  ctx_syntax : option pystr;
  ctx_environ : gmap pystr pystr;
  ctx_kwargs : gmap pystr pyval;
  ctx_rtlil_text : pystr;
  ctx_autogenerated : pystr
}.

Definition with_syntax (syntax : option pystr) (c : RenderContext)
    : RenderContext :=
  {| ctx_name := ctx_name c; ctx_platform := ctx_platform c;
     ctx_syntax := syntax; ctx_environ := ctx_environ c;
     ctx_kwargs := ctx_kwargs c; ctx_rtlil_text := ctx_rtlil_text c;
     ctx_autogenerated := ctx_autogenerated c |}.

(** [textwrap.dedent], [tool_env_var] of the toolchain module, and the
    template engine: compiling a source with strict undefined names and
    the filters, then rendering it in a context. *)
Variable dedent : pystr -> pystr.
Variable tool_env_var : pystr -> pystr.
Variable jinja2_render : pystr -> pystr -> RenderContext -> result pystr.

Definition render (base : RenderContext) (source origin : pystr)
    (syntax : option pystr) : result pystr :=
  let source := strip (dedent source) in
  jinja2_render source origin (with_syntax syntax base).

(** [invoke_tool] (lines 296-304) *)
Definition invoke_tool (c : RenderContext) (name : pystr) : result pystr :=
  let env_var := tool_env_var name in
  if decide (ctx_syntax c = Some (lit "sh"))
  then Ok ([DQUOTE] ++ lit "$" ++ env_var ++ [DQUOTE])
  else if decide (ctx_syntax c = Some (lit "bat"))
  then Ok (lit "%" ++ env_var ++ lit "%")
  else Raise AssertionError.

Definition emit_commands (base : RenderContext) (syntax : pystr) : result pystr :=
  let self := ctx_platform base in
  tools <~ required_tools self ;;
  inits <~ rmap (fun name =>
      let env_var := tool_env_var name in
      if decide (syntax = lit "sh")
      then Ok (lit ": ${" ++ env_var ++ lit ":=" ++ name ++ lit "}")
      else if decide (syntax = lit "bat")
      then Ok (lit "if [%" ++ env_var ++ lit "%] equ [" ++ [DQUOTE; DQUOTE]
               ++ lit "] set " ++ env_var ++ lit "=" ++ [NEWLINE]
               ++ lit "if [%" ++ env_var ++ lit "%] equ [] set " ++ env_var
               ++ lit "=" ++ name)
      else Raise AssertionError) tools ;;
  templates <~ command_templates self ;;
  commands <~ rmap (fun ic =>
      let index := ic.1 in
      let command_tpl := ic.2 in
      command <~ render base command_tpl
                   (lit "<command#" ++ str_of_nat (index + 1) ++ lit ">")
                   (Some syntax) ;;
      let command := Re.sub (Re.Many1 Re.Space) [Re.TLit SPACE] command in
      if decide (syntax = lit "sh") then Ok command
      else if decide (syntax = lit "bat") then Ok (command ++ lit " || exit /b")
      else Raise AssertionError) (enumerate templates) ;;
  Ok (join [NEWLINE] (inits ++ commands)).

(** *** The build plan (lines 214-239, 379-385) *)

(** The elaborator and the netlist conversion. *)
Variable Elaboratable Fragment : Type.
Variable Fragment_get : Elaboratable -> M Fragment.
Variable Fragment_prepare :
  Fragment -> (pystr -> M (option Module)) -> gmap pystr pyval -> M Fragment.
Variable convert_fragment : Fragment -> pystr -> result (pystr * NameMap).
Variable __version__ : pystr.

(** The two loops that fill the plan. *)
Definition assemble_plan (base : RenderContext) : result BuildPlan :=
  let self := ctx_platform base in
  let plan := new_plan (lit "build_" ++ ctx_name base) in
  templates <~ file_templates self ;;
  plan <~ rfold (fun plan ft =>
      let filename_tpl := ft.1 in
      let content_tpl := ft.2 in
      filename <~ render base filename_tpl filename_tpl None ;;
      content <~ render base content_tpl content_tpl None ;;
      add_file filename content plan) templates plan ;;
  rfold (fun plan fc => add_file fc.1 fc.2 plan) (extra_files self) plan.

Definition prepare (elaboratable : Elaboratable) (name : pystr)
    (kwargs : gmap pystr pyval) : M BuildPlan :=
  _ <- lift (check_design_name name) ;;
  let autogenerated :=
    lit "Automatically generated by nMigen " ++ __version__ ++ lit ". Do not edit." in
  _ <- assert_ (bool_decide (is_Some (kwargs !! lit "ports"))) ;;
  fragment <- Fragment_get elaboratable ;;
  w <- get ;;
  _ <- ports_extend
         (flat_map (fun pin => map snd (pin_fields pin))
                   (port_pins (resources (self w)))) ;;
  fragment <- Fragment_prepare fragment create_missing_domain kwargs ;;
  conv <- lift (convert_fragment fragment name) ;;
  let rtlil_text := conv.1 in
  _ <- update_self (set_name_map conv.2) ;;
  w <- get ;;
  lift (assemble_plan
          {| ctx_name := name; ctx_platform := self w; ctx_syntax := None;
             ctx_environ := environ w; ctx_kwargs := kwargs;
             ctx_rtlil_text := rtlil_text;
             ctx_autogenerated := autogenerated |}).

End Platform.

Arguments toolchain {RM} p.
Arguments default_clk {RM} p.
Arguments default_rst {RM} p.
Arguments _build_dir {RM} p.
Arguments _name_map {RM} p.
Arguments extra_files {RM} p.
Arguments resources {RM} p.
Arguments set_toolchain {RM} t p.
Arguments set_default_rst {RM} r p.
Arguments set_name_map {RM} nm p.
Arguments set_resources {RM} rm p.
Arguments __init__ {RM} base toolchain.
Arguments required_tools {RM} self.
Arguments command_templates {RM} self.
Arguments file_templates {RM} build_script_templates self.
Arguments self {RM} w.
Arguments ports {RM} w.
Arguments environ {RM} w.
Arguments ret {RM A} a w.
Arguments raise {RM A} e w.
Arguments bind {RM A B} m k w.
Arguments lift {RM A} r w.
Arguments get {RM} w.
Arguments assert_ {RM} b w.
Arguments update_self {RM} f w.
Arguments ports_extend {RM} l w.
Arguments ports_append {RM} s w.
Arguments self_request {RM} request name w.
Arguments create_missing_domain {RM} request name w.
Arguments ctx_name {RM} _.
Arguments ctx_platform {RM} _.
Arguments ctx_syntax {RM} _.
Arguments ctx_environ {RM} _.
Arguments ctx_kwargs {RM} _.
Arguments ctx_rtlil_text {RM} _.
Arguments ctx_autogenerated {RM} _.
Arguments with_syntax {RM} syntax c.
Arguments render {RM} dedent jinja2_render base source origin syntax.
Arguments invoke_tool {RM} tool_env_var c name.
Arguments emit_commands {RM} dedent tool_env_var jinja2_render base syntax.
Arguments assemble_plan {RM} build_script_templates dedent jinja2_render base.
Arguments prepare {RM} request port_pins build_script_templates dedent
  jinja2_render {Elaboratable Fragment} Fragment_get Fragment_prepare
  convert_fragment __version__ elaboratable name kwargs w.

(** ** Definitions the statements use *)

(** The length of the longest prefix of [s] made of characters of [a]. *)
Fixpoint run_length (a : Re.atom) (s : pystr) : nat :=
  match s with
  | c :: s' => if Re.atom_ok a c then S (run_length a s') else 0
  | [] => 0
  end.

(** The text a backslash-escaping substitution is meant to produce. *)
Definition backslash_escape (special : list char) (s : pystr) : pystr :=
  flat_map (fun c => if bool_decide (c ∈ special) then [BACKSLASH; c] else [c]) s.

(** What [ascii_escape] makes of one character. *)
Definition escape_char (c : char) : pystr :=
  if is_word c then [c] else [UNDERSCORE] ++ format_02x c ++ [UNDERSCORE].

(** A string of code points below 256 as a Rocq string. *)
Definition unlit (s : pystr) : string := string_of_list_ascii (map ascii_of_N s).

(** The number a run of hexadecimal digits stands for. *)
Definition unhex (digits : pystr) : option N :=
  if forallb (fun c => c <? 256) digits
  then N.of_hex_uint <$> HexadecimalString.NilZero.uint_of_string (unlit digits)
  else None.

(** Decoding: a character other than [_] stands for itself, and
    [_] digits [_] for the code point the digits give. *)
Fixpoint unescape_from (esc : option pystr) (s : pystr) : option pystr :=
  match s with
  | [] => match esc with None => Some [] | Some _ => None end
  | c :: s' =>
      match esc with
      | None =>
          if c =? UNDERSCORE then unescape_from (Some []) s'
          else cons c <$> unescape_from None s'
      | Some digits =>
          if c =? UNDERSCORE
          then match unhex (rev digits) with
               | Some n => cons n <$> unescape_from None s'
               | None => None
               end
          else unescape_from (Some (c :: digits)) s'
      end
  end.

Definition ascii_unescape (s : pystr) : option pystr := unescape_from None s.

(** The digits [{:02x}] writes. *)
Definition hexdigits : pystr := lit "0123456789abcdef".

(** Printable ASCII: space to tilde. *)
Definition printable (c : char) : bool := in_range 32 126 c.

(** [re.sub(r"\s+", " ", command)] *)
Definition collapse (s : pystr) : pystr :=
  Re.sub (Re.Many1 Re.Space) [Re.TLit SPACE] s.

(** The initialization line of a tool for ["sh"], and the two for ["bat"]. *)
Definition sh_init (env_var name : pystr) : pystr :=
  lit ": ${" ++ env_var ++ lit ":=" ++ name ++ lit "}".

Definition bat_init_1 (env_var : pystr) : pystr :=
  lit "if [%" ++ env_var ++ lit "%] equ [" ++ [DQUOTE; DQUOTE] ++ lit "] set "
  ++ env_var ++ lit "=".

Definition bat_init_2 (env_var name : pystr) : pystr :=
  lit "if [%" ++ env_var ++ lit "%] equ [] set " ++ env_var ++ lit "=" ++ name.

(** ["<command#{}>".format(index + 1)] *)
Definition command_origin (index : nat) : pystr :=
  lit "<command#" ++ str_of_nat (index + 1) ++ lit ">".

(** Whether the body of a literal holds a character of [bad] that no
    backslash escapes, or ends in a backslash that escapes nothing. *)
Fixpoint unescaped_from (escaped : bool) (bad : char -> bool) (body : pystr) : bool :=
  match body with
  | [] => escaped
  | c :: rest =>
      if escaped then unescaped_from false bad rest
      else if c =? BACKSLASH then unescaped_from true bad rest
      else bad c || unescaped_from false bad rest
  end.

Definition has_unescaped (bad : char -> bool) (body : pystr) : bool :=
  unescaped_from false bad body.

(** The text between the delimiters of a literal. *)
Definition literal_body (left right : char) (s : pystr) : option pystr :=
  match s with
  | c :: rest =>
      match rev rest with
      | d :: body => if (c =? left) && (d =? right) then Some (rev body) else None
      | [] => None
      end
  | [] => None
  end.

(** The module the callback returns: one domain, its clock driven by
    [clk_i], and a reset synchronizer on [rst_i]. *)
Definition sync_module (clk_i rst_i : Signal) : Module :=
  {| m_domains := [ {| cd_name := lit "sync" |} ];
     m_comb := [ {| ca_domain := lit "sync"; ca_rhs := clk_i |} ];
     m_submodules :=
       [ (lit "reset_sync", {| rs_arst := rst_i; rs_domain := lit "sync" |}) ] |}.

(** [Signal(name = 'rst')] *)
Definition rst_signal : Signal := {| sig_name := lit "rst" |}.

(** An entry of the plan is what the two templates of a pair render to. *)
Definition renders_to {RM} (dedent : pystr -> pystr)
    (jinja2_render : pystr -> pystr -> RenderContext RM -> result pystr)
    (base : RenderContext RM) (ft fc : pystr * pystr) : Prop :=
  render dedent jinja2_render base ft.1 ft.1 None = Ok fc.1
  /\ render dedent jinja2_render base ft.2 ft.2 None = Ok fc.2.

(** A computation that leaves the platform's toolchain as it found it. *)
Definition keeps_toolchain {RM A} (m : M RM A) : Prop :=
  forall w, toolchain (self (m w).2) = toolchain (self w).

(** ** Definitions of the further properties *)

(** Taking the escaping backslashes out of the body of a literal. *)
Fixpoint unescape_backslashes (escaped : bool) (body : pystr) : pystr :=
  match body with
  | [] => []
  | c :: rest =>
      if escaped then c :: unescape_backslashes false rest
      else if c =? BACKSLASH then unescape_backslashes true rest
      else c :: unescape_backslashes false rest
  end.

(** [s.count] of the characters outside [[A-Za-z0-9_]]. *)
Definition count_escaped (s : pystr) : nat :=
  length (List.filter (fun c => negb (is_word c)) s).

(** [_default_clk_name] (lines 189-203).  Modelled from the spec: the
    resources are those of the build package's resource manager.
    [lookup] is [self.lookup], [port_entries] the [(res, pin)] part of the
    tuples of [self._ports], [ios0_dir] is [res.ios[0].dir]; resources are
    compared as Python compares objects without [__eq__], by identity. *)
Definition pin_o (pin : Pin) : result Signal :=
  match dict_get (lit "o") (pin_fields pin) with
  | Some s => Ok s
  | None => Raise AttributeError
  end.

Section DefaultClkName.
Context {RM Resource : Type} `{EqDecision Resource}.
Variable lookup : pystr -> RM -> result Resource.
Variable port_entries : RM -> list (Resource * Pin).
Variable ios0_dir : Resource -> pystr.

Fixpoint first_port_name (resource : Resource) (entries : list (Resource * Pin))
    : result pystr :=
  match entries with
  | [] => Raise AssertionError
  | (res, pin) :: rest =>
      if decide (res = resource) then
        if decide (ios0_dir res = lit "i")
        then s <~ pin_i pin ;; Ok (sig_name s)
        else s <~ pin_o pin ;; Ok (sig_name s)
      else first_port_name resource rest
  end.

Definition _default_clk_name (self : Platform RM) : result pystr :=
  match default_clk self with
  | None => Raise AttributeError
  | Some clk =>
      resource <~ lookup clk (resources self) ;;
      first_port_name resource (port_entries (resources self))
  end.
End DefaultClkName.

(** ** A small platform to run the definitions on *)

Module Example.

(** A resource manager that knows the resource [clk] only and hands out
    a pin with one input signal; its state is the list of the requests
    it served. *)
Definition RM := list pystr.

Definition request (name : pystr) (requested : RM) : result Pin * RM :=
  if bool_decide (name = lit "clk")
  then (Ok {| pin_fields := [(lit "i", {| sig_name := name |})] |},
        requested ++ [name])
  else (Raise (ExternalError (lit "ResourceError")), requested).

Definition port_pins (requested : RM) : list Pin :=
  map (fun name => {| pin_fields := [(lit "i", {| sig_name := name |})] |}) requested.

Definition dedent (s : pystr) : pystr := s.

(** Upper case, as a tool's environment variable is spelled. *)
Definition tool_env_var (name : pystr) : pystr :=
  map (fun c => if in_range (chr "a") (chr "z") c then c - 32 else c) name.

(** A renderer that only fills in [{{name}}]. *)
Fixpoint fill_name (name : pystr) (skip : nat) (s : pystr) : pystr :=
  match s with
  | [] => []
  | c :: s' =>
      match skip with
      | S n => fill_name name n s'
      | O =>
          if bool_decide (take 8 s = lit "{{name}}")
          then name ++ fill_name name 7 s'
          else c :: fill_name name 0 s'
      end
  end.

Definition jinja2_render (source origin : pystr) (c : RenderContext RM) : result pystr :=
  Ok (fill_name (ctx_name c) 0 source).

Definition Elaboratable := unit.
Definition Fragment := list Module.

Definition Fragment_get (e : Elaboratable) : M RM Fragment := ret [].

(** An elaborator that finds the domain [sync] missing. *)
Definition Fragment_prepare (f : Fragment)
    (missing_domain : pystr -> M RM (option Module))
    (kwargs : gmap pystr pyval) : M RM Fragment :=
  bind (missing_domain (lit "sync"))
    (fun m => ret (f ++ match m with Some m => [m] | None => [] end)).

Definition convert_fragment (f : Fragment) (name : pystr)
    : result (pystr * NameMap) :=
  Ok (lit "module " ++ name, []).

Definition base : Platform RM :=
  {| toolchain := None; default_clk := Some (lit "clk"); default_rst := None;
     _build_dir := lit "nya"; _name_map := None;
     extra_files := [(lit "pins.txt", lit "clk A1")]; resources := [] |}.

Definition docker : Platform RM := set_toolchain (lit "Docker") base.

Definition world : World RM := {| self := docker; ports := []; environ := ∅ |}.

Definition context : RenderContext RM :=
  {| ctx_name := lit "top"; ctx_platform := docker; ctx_syntax := None;
     ctx_environ := ∅; ctx_kwargs := ∅; ctx_rtlil_text := [];
     ctx_autogenerated := [] |}.

Definition prepare_named (name : pystr) : result BuildPlan * World RM :=
  prepare request port_pins [] dedent jinja2_render Fragment_get Fragment_prepare
    convert_fragment (lit "0.3") tt name
    {[ lit "ports" := VObj (lit "[]") false ]} world.

Definition run_prepare : result BuildPlan * World RM := prepare_named (lit "top").

(** The same platform without a default clock. *)
Definition no_clock : World RM :=
  {| self := {| toolchain := Some (lit "Docker"); default_clk := None;
                default_rst := None; _build_dir := lit "nya"; _name_map := None;
                extra_files := []; resources := [] |};
     ports := []; environ := ∅ |}.

Definition clk_pin : Pin := {| pin_fields := [(lit "i", {| sig_name := lit "clk" |})] |}.

Definition clk_signal : Signal := {| sig_name := lit "clk" |}.

End Example.

(** The same platform over a resource manager that hands out a resource
    once and refuses it when it is asked for again; it knows the resource
    [clk] only.  Its state is the list of the names it was asked for. *)
Module Strict.

Definition RM := list pystr.

Definition request (name : pystr) (asked : RM) : result Pin * RM :=
  if bool_decide (name = lit "clk") && negb (bool_decide (name ∈ asked))
  then (Ok Example.clk_pin, asked ++ [name])
  else (Raise (ExternalError (lit "ResourceError")), asked ++ [name]).

Definition world : World RM := Example.world.

End Strict.

(** * Properties *)

Section ReFacts.
Import Re.

Lemma sub_succ_self (n : nat) : (S n - n = 1)%nat.
Proof. lia. Qed.

Lemma match_at_group_one n a pos c s :
  match_at (Group n (One a)) pos (c :: s) =
    if atom_ok a c then Some (Mtch pos (S pos) {[ n := [c] ]}) else None.
Proof.
  unfold match_at. simpl. destruct (atom_ok a c); [|done].
  rewrite sub_succ_self. done.
Qed.

Lemma match_at_group_one_nil n a pos : match_at (Group n (One a)) pos [] = None.
Proof. done. Qed.

Lemma expand_only_groups tpl a b g : expand tpl (Mtch a b g) = expand_groups tpl g.
Proof. done. Qed.

(** Substitution with a pattern that matches exactly one character. *)
Lemma sub_from_unit r tpl (f : char -> option (gmap nat pystr)) :
  (forall pos, match_at r pos [] = None) ->
  (forall pos c s, match_at r pos (c :: s) =
     match f c with Some g => Some (Mtch pos (S pos) g) | None => None end) ->
  forall s pos,
    sub_from r tpl pos 0 s =
    flat_map (fun c => match f c with
                       | Some g => expand_groups tpl g
                       | None => [c]
                       end) s.
Proof.
  intros Hnil Hcons s. induction s as [|c s IH]; intros pos.
  - cbn [sub_from]. by rewrite Hnil.
  - cbn [sub_from flat_map]. rewrite Hcons. destruct (f c) as [g|].
    + cbn [m_end]. destruct (Nat.eqb_spec (S pos) pos) as [E|_]; [lia|].
      replace (S pos - pos - 1)%nat with 0%nat by lia.
      by rewrite IH, expand_only_groups.
    + by rewrite IH.
Qed.

Lemma many_all a k0 (s : pystr) pos g :
  many a pos s g (fun pos' _ g' => Some (Mtch k0 pos' g')) =
    Some (Mtch k0 (pos + run_length a s) g).
Proof.
  revert pos. induction s as [|c s IH]; intros pos; cbn [many run_length].
  - by rewrite Nat.add_0_r.
  - destruct (atom_ok a c).
    + rewrite IH. by replace (S pos + run_length a s)%nat
        with (pos + S (run_length a s))%nat by lia.
    + by rewrite Nat.add_0_r.
Qed.

Lemma match_at_many1 a pos c s :
  match_at (Many1 a) pos (c :: s) =
    if atom_ok a c then Some (Mtch pos (S pos + run_length a s) ∅) else None.
Proof.
  unfold match_at. cbn [run]. destruct (atom_ok a c); [|done].
  apply many_all.
Qed.

Lemma expand_lits rep m : expand (map TLit rep) m = rep.
Proof.
  unfold expand. induction rep as [|c rep IH]; [done|].
  cbn [map flat_map]. by rewrite IH.
Qed.

(** Substituting [a+] by a template without group references leaves no
    character of the class [a] but those of the template. *)
Lemma sub_from_many1 a (rep : list char) (s : pystr) : forall pos skip,
  (skip <= run_length a s)%nat ->
  Forall (fun c => atom_ok a c = false \/ c ∈ rep)
    (sub_from (Many1 a) (map TLit rep) pos skip s).
Proof.
  induction s as [|c s IH]; intros pos skip Hskip.
  - cbn [sub_from]. destruct skip; [|constructor]. 
    by change (match_at (Many1 a) pos []) with (@None mtch).
  - cbn [sub_from]. cbn [run_length] in Hskip. destruct skip as [|n].
    + rewrite match_at_many1. destruct (atom_ok a c) eqn:E.
      * cbn [m_end]. destruct (Nat.eqb_spec (S pos + run_length a s) pos); [lia|].
        apply Forall_app. split.
        -- rewrite expand_lits. apply Forall_forall. intros x Hx. by right.
        -- apply IH. lia.
      * constructor; [by left|]. apply IH. lia.
    + destruct (atom_ok a c); [|lia]. apply IH. lia.
Qed.
End ReFacts.

Lemma atom_ok_chars (l : list char) c :
  Re.atom_ok (Re.In_ (map Re.Ch l)) c = bool_decide (c ∈ l).
Proof.
  cbn [Re.atom_ok]. induction l as [|d l IH]; [done|].
  cbn [map existsb Re.item_ok]. rewrite IH.
  destruct (N.eqb_spec c d) as [->|Hne].
  - cbn. symmetry. apply bool_decide_eq_true. left.
  - cbn. apply bool_decide_ext. rewrite elem_of_cons.
    split; [by right | by intros [?|?]].
Qed.

Lemma sub_backslash (l : list char) s :
  Re.sub (Re.Group 1 (Re.One (Re.In_ (map Re.Ch l)))) backslash_group1 s =
  backslash_escape l s.
Proof.
  unfold Re.sub, backslash_escape.
  rewrite (sub_from_unit _ _
    (fun c => if bool_decide (c ∈ l) then Some {[ 1%nat := [c] ]} else None)).
  - apply flat_map_ext. intros c. case_bool_decide; [|done].
    unfold Re.expand_groups, Re.expand, backslash_group1, Re.group. cbn.
    by rewrite lookup_singleton_eq.
  - done.
  - intros pos c s'. rewrite match_at_group_one, atom_ok_chars.
    by case_bool_decide.
Qed.

(** C7: a value that is not marked safe comes back from [tcl_escape] in
    braces with every brace and backslash preceded by a backslash, and from
    [tcl_quote] in double quotes with every dollar, open bracket and
    backslash preceded by a backslash; a marked-safe value comes back from
    both as it is. *)
Theorem tcl_escape_quote_spec (v : pyval) :
  tcl_escape v =
    (if is_markup v then v
     else VStr ([LBRACE] ++ backslash_escape [LBRACE; RBRACE; BACKSLASH] (py_str v)
                ++ [RBRACE]))
  /\ tcl_quote v =
    (if is_markup v then v
     else VStr ([DQUOTE] ++ backslash_escape [DOLLAR; LBRACKET; BACKSLASH] (py_str v)
                ++ [DQUOTE])).
Proof.
  unfold tcl_escape, tcl_quote, tcl_escape_pattern, tcl_quote_pattern.
  split; destruct (is_markup v); try done.
  - by rewrite (sub_backslash [LBRACE; RBRACE; BACKSLASH]).
  - by rewrite (sub_backslash [DOLLAR; LBRACKET; BACKSLASH]).
Qed.

(** ** ascii_escape *)

Lemma match_at_ascii pos c s :
  Re.match_at ascii_pattern pos (c :: s) =
    if is_word c
    then (if c =? NEWLINE then None
          else Some (Re.Mtch pos (S pos) {[ 2%nat := [c] ]}))
    else Some (Re.Mtch pos (S pos) {[ 1%nat := [c] ]}).
Proof.
  unfold Re.match_at, ascii_pattern, is_word. cbn [Re.run Re.atom_ok].
  rewrite sub_succ_self. cbn [take].
  destruct (existsb _ word_items); cbn [negb]; [|done].
  by destruct (c =? NEWLINE).
Qed.

Lemma is_word_newline c : is_word c = true -> (c =? NEWLINE) = false.
Proof.
  intros H. destruct (N.eqb_spec c NEWLINE) as [->|]; [|done].
  by vm_compute in H.
Qed.

Lemma finditer_ascii s : forall pos,
  rmap escape_one (Re.finditer_from ascii_pattern pos 0 s) = Ok (map escape_char s).
Proof.
  induction s as [|c s IH]; intros pos; [done|].
  cbn [Re.finditer_from map]. rewrite match_at_ascii. unfold escape_char at 1.
  destruct (is_word c) eqn:Hw.
  - rewrite (is_word_newline _ Hw). cbn [Re.m_end rmap].
    replace (S pos - pos - 1)%nat with 0%nat by lia. rewrite IH.
    unfold escape_one, Re.group. cbn [Re.m_groups].
    rewrite lookup_singleton_ne by done. by rewrite lookup_singleton_eq.
  - cbn [Re.m_end rmap].
    replace (S pos - pos - 1)%nat with 0%nat by lia. rewrite IH.
    unfold escape_one, Re.group. cbn [Re.m_groups].
    by rewrite lookup_singleton_eq.
Qed.

Lemma ascii_escape_spec s : ascii_escape s = Ok (flat_map escape_char s).
Proof.
  unfold ascii_escape, Re.finditer. rewrite finditer_ascii. cbn [rbind].
  f_equal. induction s as [|c s IH]; [done|]. cbn. by rewrite IH.
Qed.

Lemma lit_cons a s : lit (String a s) = N_of_ascii a :: lit s.
Proof. done. Qed.

Lemma hex_string_digits d :
  Forall (fun c => c ∈ hexdigits) (lit (HexadecimalString.NilEmpty.string_of_uint d)).
Proof.
  induction d; cbn [HexadecimalString.NilEmpty.string_of_uint];
    [constructor | rewrite lit_cons; constructor; [by vm_compute; set_solver | done] ..].
Qed.

Lemma length_lit s : length (lit s) = String.length s.
Proof.
  unfold lit. rewrite length_map. induction s as [|a s IH]; [done|].
  cbn. by rewrite IH.
Qed.

Lemma format_02x_uint n :
  exists d, format_02x n = lit (HexadecimalString.NilEmpty.string_of_uint d)
            /\ d <> Hexadecimal.Nil /\ N.of_hex_uint d = n.
Proof.
  unfold format_02x.
  assert (Hnn : N.to_hex_uint n <> Hexadecimal.Nil).
  { destruct n; [done|]. apply HexadecimalPos.Unsigned.to_uint_nonnil. }
  assert (Hs : HexadecimalString.NilZero.string_of_uint (N.to_hex_uint n) =
               HexadecimalString.NilEmpty.string_of_uint (N.to_hex_uint n)).
  { by destruct (N.to_hex_uint n). }
  rewrite Hs, length_lit.
  destruct (String.length _) as [|[|k]] eqn:Hlen.
  - exfalso. by destruct (N.to_hex_uint n).
  - exists (Hexadecimal.D0 (N.to_hex_uint n)). split; [done|]. split; [done|].
    apply HexadecimalN.Unsigned.of_to.
  - exists (N.to_hex_uint n). split; [done|]. split; [done|].
    apply HexadecimalN.Unsigned.of_to.
Qed.

Lemma unlit_lit s : unlit (lit s) = s.
Proof.
  unfold unlit, lit. rewrite map_map.
  rewrite (map_ext _ id), map_id; [apply string_of_list_ascii_of_string|].
  intros a. apply ascii_N_embedding.
Qed.

Lemma lit_bytes s : forallb (fun c => c <? 256) (lit s) = true.
Proof.
  induction s as [|a s IH]; [done|]. rewrite lit_cons. cbn [forallb].
  rewrite IH, andb_true_r. apply N.ltb_lt, N_ascii_bounded.
Qed.

Lemma unhex_format_02x n : unhex (format_02x n) = Some n.
Proof.
  destruct (format_02x_uint n) as (d & -> & Hd & <-).
  unfold unhex. rewrite lit_bytes, unlit_lit.
  assert (HexadecimalString.NilZero.uint_of_string
            (HexadecimalString.NilEmpty.string_of_uint d) = Some d) as ->; [|done].
  pose proof (HexadecimalString.NilEmpty.usu d) as H.
  by destruct d.
Qed.

Lemma format_02x_digits n : Forall (fun c => c ∈ hexdigits) (format_02x n).
Proof. destruct (format_02x_uint n) as (d & -> & _). apply hex_string_digits. Qed.

Lemma hexdigit_word c : c ∈ hexdigits -> is_word c = true /\ c <> UNDERSCORE.
Proof.
  revert c. apply Forall_forall. vm_compute.
  repeat (constructor; [done|]). constructor.
Qed.

Lemma escape_char_word c : Forall (fun x => is_word x = true) (escape_char c).
Proof.
  unfold escape_char. destruct (is_word c) eqn:Hw; [by repeat constructor|].
  constructor; [done|]. apply Forall_app. split; [|by repeat constructor].
  eapply Forall_impl; [apply format_02x_digits|].
  intros x Hx. by apply hexdigit_word.
Qed.

Lemma unescape_digits (h : pystr) : forall acc rest,
  Forall (fun c => c <> UNDERSCORE) h ->
  unescape_from (Some acc) (h ++ UNDERSCORE :: rest) =
    match unhex (rev acc ++ h) with
    | Some n => cons n <$> unescape_from None rest
    | None => None
    end.
Proof.
  induction h as [|c h IH]; intros acc rest Hh.
  - cbn. by rewrite app_nil_r.
  - inversion Hh as [|? ? Hc Hh']; subst. cbn [app unescape_from].
    destruct (N.eqb_spec c UNDERSCORE) as [|_]; [done|].
    rewrite IH by done. cbn [rev]. by rewrite <- app_assoc.
Qed.

Lemma unescape_escape s :
  UNDERSCORE ∉ s -> ascii_unescape (flat_map escape_char s) = Some s.
Proof.
  unfold ascii_unescape. induction s as [|c s IH]; intros Hs; [done|].
  apply not_elem_of_cons in Hs as [Hc Hs]. cbn [flat_map].
  unfold escape_char at 1. destruct (is_word c).
  - cbn [app unescape_from]. destruct (N.eqb_spec c UNDERSCORE); [done|].
    by rewrite IH.
  - rewrite <- !app_assoc. cbn [app unescape_from]. rewrite N.eqb_refl.
    rewrite unescape_digits.
    + cbn [rev app]. rewrite unhex_format_02x. by rewrite IH.
    + eapply Forall_impl; [apply format_02x_digits|].
      intros x Hx. by apply hexdigit_word.
Qed.

(** C5, as amended: [ascii_escape] returns for every string, its output is
    made of characters of [[A-Za-z0-9_]] only, and on strings without an
    underscore it is reversible, hence injective: decoding each escape
    sequence gives the string back. *)
Theorem ascii_escape_amended (s : pystr) :
  exists out,
    ascii_escape s = Ok out
    /\ Forall (fun c => is_word c = true) out
    /\ (UNDERSCORE ∉ s -> ascii_unescape out = Some s)
    /\ (forall s', UNDERSCORE ∉ s -> UNDERSCORE ∉ s' ->
                   ascii_escape s' = Ok out -> s' = s).
Proof.
  exists (flat_map escape_char s). split; [apply ascii_escape_spec|].
  split; [|split].
  - apply Forall_flat_map, Forall_forall. intros c _. apply escape_char_word.
  - apply unescape_escape.
  - intros s' Hs Hs' E. rewrite ascii_escape_spec in E.
    apply unescape_escape in Hs, Hs'. injection E as E. congruence.
Qed.

(** C5, as stated, fails: two different strings of printable ASCII
    characters have the same escaped form, because an underscore of the
    input is passed through. *)
Lemma ascii_escape_collision :
  forallb printable (lit "-") = true
  /\ forallb printable (lit "_2d_") = true
  /\ lit "-" <> lit "_2d_"
  /\ ascii_escape (lit "-") = ascii_escape (lit "_2d_").
Proof. by vm_compute. Qed.

(** ** emit_commands *)

Lemma split_lines_nonempty s : split_lines s <> [].
Proof.
  destruct s as [|c s]; [done|]. cbn [split_lines].
  destruct (c =? NEWLINE); [done|]. by destruct (split_lines s).
Qed.

Lemma split_lines_app a b :
  split_lines (a ++ NEWLINE :: b) = split_lines a ++ split_lines b.
Proof.
  induction a as [|c a IH]; [done|]. cbn [app split_lines].
  destruct (c =? NEWLINE); [by rewrite IH|]. rewrite IH.
  pose proof (split_lines_nonempty a). by destruct (split_lines a).
Qed.

Lemma split_lines_one s : NEWLINE ∉ s -> split_lines s = [s].
Proof.
  induction s as [|c s IH]; [done|]. intros [Hc Hs]%not_elem_of_cons.
  cbn [split_lines]. destruct (N.eqb_spec c NEWLINE); [done|]. by rewrite IH.
Qed.

Lemma split_lines_join l :
  l <> [] -> split_lines (join [NEWLINE] l) = flat_map split_lines l.
Proof.
  induction l as [|p l IH]; [done|]. intros _. destruct l as [|q l].
  - cbn. by rewrite app_nil_r.
  - change (join [NEWLINE] (p :: q :: l)) with (p ++ NEWLINE :: join [NEWLINE] (q :: l)).
    rewrite split_lines_app, IH by done. done.
Qed.

Lemma rmap_ok {A B} (f : A -> result B) (g : A -> B) l :
  Forall (fun x => f x = Ok (g x)) l -> rmap f l = Ok (map g l).
Proof.
  induction 1 as [|x l Hx _ IH]; [done|]. cbn [rmap map]. by rewrite Hx, IH.
Qed.

(** After the collapse the only white space left is the space character. *)
Lemma collapse_only_spaces s :
  Forall (fun c => isspace c = false \/ c = SPACE) (collapse s).
Proof.
  unfold collapse, Re.sub.
  eapply Forall_impl; [apply (sub_from_many1 Re.Space [SPACE] s 0 0); lia|].
  intros c [H|H]; [by left|]. right. by apply list_elem_of_singleton in H.
Qed.

Lemma collapse_no_newline s : NEWLINE ∉ collapse s.
Proof.
  unfold collapse, Re.sub.
  pose proof (sub_from_many1 Re.Space [SPACE] s 0 0 ltac:(lia)) as H.
  intros Hin. rewrite Forall_forall in H. destruct (H _ Hin) as [E|E].
  - by vm_compute in E.
  - by apply list_elem_of_singleton in E.
Qed.

Section EmitCommands.
Context {RM : Type}.
Variable dedent : pystr -> pystr.
Variable tool_env_var : pystr -> pystr.
Variable jinja2_render : pystr -> pystr -> RenderContext RM -> result pystr.

Lemma required_tools_cases (p : Platform RM) tools :
  required_tools p = Ok tools -> tools = [lit "docker"] \/ tools = [].
Proof.
  unfold required_tools. repeat case_decide; intros [= <-]; auto.
Qed.

Lemma command_templates_length (p : Platform RM) templates :
  command_templates p = Ok templates -> length templates = 1%nat.
Proof.
  unfold command_templates. by repeat case_decide; intros [= <-].
Qed.

Lemma rmap_imap {A B} (f : nat * A -> result B) (g : nat -> A -> B) l :
  forall h : nat -> nat,
  (forall i x, l !! i = Some x -> f (h i, x) = Ok (g (h i) x)) ->
  rmap f (imap (fun i x => (h i, x)) l) = Ok (imap (fun i => g (h i)) l).
Proof.
  induction l as [|x l IH]; intros h H; [done|].
  cbn [imap rmap]. rewrite (H 0%nat x) by done. cbn [rbind].
  pose proof (IH (h ∘ S) (fun i y Hy => H (S i) y Hy)) as E.
  unfold compose in *. cbv beta in *. by rewrite E.
Qed.

Lemma rmap_enumerate {A B} (f : nat * A -> result B) (g : nat -> A -> B) l :
  (forall i x, l !! i = Some x -> f (i, x) = Ok (g i x)) ->
  rmap f (enumerate l) = Ok (imap g l).
Proof. intros H. by apply (rmap_imap f g l id). Qed.

Lemma flat_map_split_one (l : list pystr) :
  Forall (fun s => NEWLINE ∉ s) l -> flat_map split_lines l = l.
Proof.
  induction 1 as [|s l Hs _ IH]; [done|].
  cbn [flat_map]. by rewrite split_lines_one, IH.
Qed.

Lemma Forall_imap_intro {A B} (P : B -> Prop) (g : nat -> A -> B) l :
  (forall i x, P (g i x)) -> Forall P (imap g l).
Proof.
  revert g. induction l as [|x l IH]; intros g H; cbn [imap]; constructor.
  - apply H.
  - apply IH. intros i y. apply H.
Qed.

Lemma no_newline_lit (s : pystr) :
  bool_decide (NEWLINE ∉ s) = true -> NEWLINE ∉ s.
Proof. apply bool_decide_eq_true. Qed.

Lemma sh_init_one_line env t :
  NEWLINE ∉ env -> NEWLINE ∉ t -> NEWLINE ∉ sh_init env t.
Proof.
  intros He Ht. unfold sh_init. rewrite !not_elem_of_app.
  repeat split; try done; by apply no_newline_lit.
Qed.

Lemma bat_init_lines env t :
  NEWLINE ∉ env -> NEWLINE ∉ t ->
  split_lines (bat_init_1 env ++ NEWLINE :: bat_init_2 env t) =
    [bat_init_1 env; bat_init_2 env t].
Proof.
  intros He Ht. rewrite split_lines_app, !split_lines_one; [done|..].
  - unfold bat_init_2. rewrite !not_elem_of_app.
    repeat split; try done; by apply no_newline_lit.
  - unfold bat_init_1. rewrite !not_elem_of_app.
    repeat split; try done; by apply no_newline_lit.
Qed.

Lemma bat_inits_lines (tools : list pystr) :
  Forall (fun t => NEWLINE ∉ tool_env_var t) tools ->
  Forall (fun t => NEWLINE ∉ t) tools ->
  flat_map split_lines
    (map (fun t => bat_init_1 (tool_env_var t) ++ NEWLINE
                   :: bat_init_2 (tool_env_var t) t) tools) =
  flat_map (fun t => [bat_init_1 (tool_env_var t);
                      bat_init_2 (tool_env_var t) t]) tools.
Proof.
  induction 1 as [|t ts Ht _ IH]; [done|]. intros [Hn Hns]%Forall_cons.
  cbn [map flat_map]. by rewrite IH, bat_init_lines.
Qed.

Lemma length_flat_map_pair {A B} (f g : A -> B) (l : list A) :
  length (flat_map (fun x => [f x; g x]) l) = (2 * length l)%nat.
Proof.
  induction l as [|x l IH]; [done|]. cbn [flat_map app length]. rewrite IH. lia.
Qed.

(** C4, as amended: when the command templates render, [emit_commands]
    returns the lines joined by newlines.  For ["sh"]: one initialization
    line per required tool, then one whitespace-collapsed line per command
    template, in order; the line count is tools plus templates.  For
    ["bat"]: two initialization lines per required tool, then one line per
    command template, each ending in [" || exit /b"]. *)
Theorem emit_commands_lines (base : RenderContext RM) tools templates
    (cmd : pystr -> nat -> pystr) :
  required_tools (ctx_platform base) = Ok tools ->
  command_templates (ctx_platform base) = Ok templates ->
  Forall (fun t => NEWLINE ∉ tool_env_var t) tools ->
  (forall syntax i command_tpl,
     syntax = lit "sh" \/ syntax = lit "bat" ->
     templates !! i = Some command_tpl ->
     render dedent jinja2_render base command_tpl (command_origin i) (Some syntax)
     = Ok (cmd syntax i)) ->
  (exists out,
     emit_commands dedent tool_env_var jinja2_render base (lit "sh") = Ok out
     /\ split_lines out =
          map (fun t => sh_init (tool_env_var t) t) tools
          ++ imap (fun i _ => collapse (cmd (lit "sh") i)) templates
     /\ line_count out = (length tools + length templates)%nat)
  /\ (exists out,
     emit_commands dedent tool_env_var jinja2_render base (lit "bat") = Ok out
     /\ split_lines out =
          flat_map (fun t => [bat_init_1 (tool_env_var t);
                              bat_init_2 (tool_env_var t) t]) tools
          ++ imap (fun i _ => collapse (cmd (lit "bat") i) ++ lit " || exit /b")
               templates
     /\ line_count out = (2 * length tools + length templates)%nat).
Proof.
  intros Htools Htpl Henv Hrender.
  pose proof (command_templates_length _ _ Htpl) as Hlen.
  assert (Hname : Forall (fun t => NEWLINE ∉ t) tools).
  { destruct (required_tools_cases _ _ Htools) as [-> | ->]; [|constructor].
    constructor; [|constructor]. by apply no_newline_lit. }
  assert (Hne : forall (l : list pystr) (g : nat -> pystr -> pystr),
             l ++ imap g templates <> []).
  { intros l g E. apply (f_equal length) in E.
    rewrite length_app, length_imap, Hlen in E. cbn in E. lia. }
  split.
  - assert (emit_commands dedent tool_env_var jinja2_render base (lit "sh") =
            Ok (join [NEWLINE]
                  (map (fun t => sh_init (tool_env_var t) t) tools
                   ++ imap (fun i _ => collapse (cmd (lit "sh") i)) templates)))
      as Hout.
    { unfold emit_commands. rewrite Htools, Htpl. cbn [rbind].
      rewrite (rmap_ok _ (fun t => sh_init (tool_env_var t) t)).
      2:{ apply Forall_forall. intros t _. by rewrite decide_True. }
      cbn [rbind].
      rewrite (rmap_enumerate _ (fun i _ => collapse (cmd (lit "sh") i))); [done|].
      intros i x Hx. cbn [fst snd].
      unfold command_origin in Hrender.
      rewrite (Hrender _ _ _ (or_introl eq_refl) Hx).
      cbn [rbind]. by rewrite decide_True. }
    eexists. split; [exact Hout|].
    assert (split_lines (join [NEWLINE]
              (map (fun t => sh_init (tool_env_var t) t) tools
               ++ imap (fun i _ => collapse (cmd (lit "sh") i)) templates)) =
            map (fun t => sh_init (tool_env_var t) t) tools
            ++ imap (fun i _ => collapse (cmd (lit "sh") i)) templates) as Hsplit.
    { rewrite split_lines_join by apply Hne. apply flat_map_split_one.
      apply Forall_app. split.
      - apply Forall_map. rewrite Forall_forall in Henv, Hname.
        apply Forall_forall. intros t Ht. apply sh_init_one_line; auto.
      - apply Forall_imap_intro. intros i _. apply collapse_no_newline. }
    split; [exact Hsplit|].
    unfold line_count. by rewrite Hsplit, length_app, length_map, length_imap.
  - set (init := fun t => bat_init_1 (tool_env_var t) ++ NEWLINE
                           :: bat_init_2 (tool_env_var t) t).
    set (line := fun (i : nat) (_ : pystr) =>
                   collapse (cmd (lit "bat") i) ++ lit " || exit /b").
    assert (emit_commands dedent tool_env_var jinja2_render base (lit "bat") =
            Ok (join [NEWLINE] (map init tools ++ imap line templates))) as Hout.
    { unfold emit_commands. rewrite Htools, Htpl. cbn [rbind].
      rewrite (rmap_ok _ init).
      2:{ apply Forall_forall. intros t _.
          rewrite decide_False by (by vm_compute). rewrite decide_True by done.
          unfold init, bat_init_1, bat_init_2. f_equal.
          by rewrite <- !app_assoc. }
      cbn [rbind].
      rewrite (rmap_enumerate _ line); [done|].
      intros i x Hx. cbn [fst snd].
      unfold command_origin in Hrender.
      rewrite (Hrender _ _ _ (or_intror eq_refl) Hx).
      cbn [rbind]. rewrite decide_False by (by vm_compute).
      by rewrite decide_True. }
    eexists. split; [exact Hout|].
    assert (split_lines (join [NEWLINE] (map init tools ++ imap line templates)) =
            flat_map (fun t => [bat_init_1 (tool_env_var t);
                                bat_init_2 (tool_env_var t) t]) tools
            ++ imap line templates) as Hsplit.
    { rewrite split_lines_join by apply Hne. rewrite flat_map_app. f_equal.
      - by apply bat_inits_lines.
      - apply flat_map_split_one, Forall_imap_intro. intros i x. unfold line.
        rewrite not_elem_of_app. split; [apply collapse_no_newline|].
        by apply no_newline_lit. }
    split; [exact Hsplit|].
    unfold line_count. rewrite Hsplit, length_app, length_imap.
    by rewrite length_flat_map_pair.
Qed.
End EmitCommands.

(** ** Name validation and overrides *)

(** The matcher on the patterns of the source, at inputs where the
    anchors and the greedy repetition matter. *)
Example sub_whitespace_runs :
  Re.sub (Re.Many1 Re.Space) [Re.TLit SPACE]
    ([SPACE; 9] ++ lit "run" ++ [NEWLINE; SPACE; SPACE] ++ lit "-it" ++ [NEWLINE])
  = lit " run -it ".
Proof. by vm_compute. Qed.

Example sub_empty_quotes_cases :
  Re.sub empty_quotes [] [DQUOTE; DQUOTE] = []
  /\ Re.sub empty_quotes [] [DQUOTE; DQUOTE; NEWLINE] = [NEWLINE]
  /\ Re.sub empty_quotes [] [DQUOTE; DQUOTE; NEWLINE; NEWLINE]
     = [DQUOTE; DQUOTE; NEWLINE; NEWLINE]
  /\ Re.sub empty_quotes [] (lit "x" ++ [DQUOTE; DQUOTE]) = lit "x" ++ [DQUOTE; DQUOTE]
  /\ Re.sub empty_quotes [] [DQUOTE; DQUOTE; SPACE] = [DQUOTE; DQUOTE; SPACE].
Proof. by vm_compute. Qed.

Lemma check_design_name_first name :
  check_design_name name =
    match name with
    | c :: _ => if is_word c then Ok tt else Raise (ValueError_design_name name [c])
    | [] => Ok tt
    end.
Proof.
  unfold check_design_name, Re.match_, Re.match_at, is_word.
  destruct name as [|c rest]; [done|]. cbn [Re.run Re.atom_ok].
  by destruct (existsb _ word_items).
Qed.

(** When the name is refused, [prepare] raises at once and touches
    nothing. *)
Lemma prepare_invalid_name {RM Elaboratable Fragment : Type}
    (request : pystr -> RM -> result Pin * RM) (port_pins : RM -> list Pin)
    (build_script_templates : list (pystr * pystr)) (dedent : pystr -> pystr)
    (jinja2_render : pystr -> pystr -> RenderContext RM -> result pystr)
    (Fragment_get : Elaboratable -> M RM Fragment)
    (Fragment_prepare :
       Fragment -> (pystr -> M RM (option Module)) -> gmap pystr pyval
       -> M RM Fragment)
    (convert_fragment : Fragment -> pystr -> result (pystr * NameMap))
    (__version__ : pystr) (elaboratable : Elaboratable) (name : pystr)
    (kwargs : gmap pystr pyval) (w : World RM) (e : exn) :
  check_design_name name = Raise e ->
  prepare request port_pins build_script_templates dedent jinja2_render
    Fragment_get Fragment_prepare convert_fragment __version__
    elaboratable name kwargs w = (Raise e, w).
Proof. intros H. unfold prepare, bind, lift. by rewrite H. Qed.

(** C1: the code at the name [my-design], which holds a character outside
    [[A-Za-z0-9_]]: the check accepts it and [prepare] builds a plan; only
    a name whose first character is outside the class is refused, before
    anything else happens. *)
Theorem check_design_name_inner_char :
  forallb is_word (lit "my-design") = false
  /\ check_design_name (lit "my-design") = Ok tt
  /\ is_ok (Example.prepare_named (lit "my-design")).1 = true
  /\ check_design_name (lit "-design")
     = Raise (ValueError_design_name (lit "-design") (lit "-"))
  /\ Example.prepare_named (lit "-design")
     = (Raise (ValueError_design_name (lit "-design") (lit "-")), Example.world).
Proof. by vm_compute. Qed.

Section OverrideFacts.
Variable dedent : pystr -> pystr.
Variable environ : gmap pystr pystr.
Variable kwargs : gmap pystr pyval.

Lemma sub_from_no_match r tpl (s : pystr) : forall pos,
  (forall p s', (pos <= p)%nat -> Re.match_at r p s' = None) ->
  Re.sub_from r tpl pos 0 s = s.
Proof.
  induction s as [|c s IH]; intros pos H; cbn [Re.sub_from].
  - by rewrite H.
  - rewrite H by done. f_equal. apply IH. intros p s' Hp. apply H. lia.
Qed.

(** What the substitution of [^""$] by the empty string does. *)
Lemma sub_empty_quotes (value : pystr) :
  Re.sub empty_quotes [] value =
    if decide (value = [DQUOTE; DQUOTE]) then []
    else if decide (value = [DQUOTE; DQUOTE; NEWLINE]) then [NEWLINE]
    else value.
Proof.
  assert (Hlater : forall p s', (1 <= p)%nat -> Re.match_at empty_quotes p s' = None).
  { intros [|p] s' Hp; [lia|done]. }
  unfold Re.sub. destruct value as [|a rest]; [done|].
  cbn [Re.sub_from]. unfold Re.match_at at 1, empty_quotes at 1.
  cbn [Re.run Nat.eqb Re.atom_ok].
  destruct (N.eqb_spec a DQUOTE) as [->|Ha].
  2:{ rewrite sub_from_no_match by done.
      repeat case_decide; congruence. }
  destruct rest as [|b rest].
  { rewrite sub_from_no_match by done. by repeat case_decide. }
  destruct (N.eqb_spec b DQUOTE) as [->|Hb].
  2:{ rewrite sub_from_no_match by done. repeat case_decide; congruence. }
  destruct rest as [|c rest].
  { cbn. by rewrite decide_True. }
  destruct rest as [|d rest].
  - cbn [Re.at_eol]. destruct (N.eqb_spec c NEWLINE) as [->|Hc].
    + cbn. done.
    + rewrite sub_from_no_match by done. repeat case_decide; congruence.
  - cbn [Re.at_eol]. rewrite sub_from_no_match by done.
    repeat case_decide; congruence.
Qed.

Lemma get_override_precedence (var : pystr) :
  get_override dedent environ kwargs var =
    match environ !! (lit "AMARANTH_ENV_" ++ var) with
    | Some value =>
        VStr (if decide (value = [DQUOTE; DQUOTE]) then []
              else if decide (value = [DQUOTE; DQUOTE; NEWLINE]) then [NEWLINE]
              else value)
    | None =>
        match kwargs !! var with
        | Some v => if is_str v then VStr (strip (dedent (py_str v))) else v
        | None => VUndefined var
        end
    end.
Proof.
  unfold get_override. destruct (environ !! _); [|done].
  by rewrite sub_empty_quotes.
Qed.
End OverrideFacts.

(** C3: the code at an environment value that is two double quotes and a
    newline: the value is not the two-character literal, yet what comes
    back is the newline alone, because [$] also matches before a final
    newline. *)
Theorem get_override_quotes_newline (dedent : pystr -> pystr)
    (kwargs : gmap pystr pyval) :
  get_override dedent {[ lit "AMARANTH_ENV_verbose" := [DQUOTE; DQUOTE; NEWLINE] ]}
    kwargs (lit "verbose") = VStr [NEWLINE].
Proof. by vm_compute. Qed.

(** ** Unescaped characters of a literal's body *)

Lemma backslash_escape_clean (special : list char) (bad : char -> bool) s :
  BACKSLASH ∈ special ->
  (forall c, bad c = true -> c ∈ special) ->
  has_unescaped bad (backslash_escape special s) = false.
Proof.
  intros Hb Hbad. unfold has_unescaped, backslash_escape.
  induction s as [|c s IH]; [done|]. cbn [flat_map].
  case_bool_decide as Hc.
  - cbn [app unescaped_from]. by rewrite N.eqb_refl.
  - cbn [app unescaped_from]. destruct (N.eqb_spec c BACKSLASH) as [->|_]; [done|].
    rewrite IH, orb_false_r. destruct (bad c) eqn:E; [|done].
    by apply Hbad in E.
Qed.

(** C6: the code at the string made of one double quote: [tcl_quote]
    gives three double quotes, a literal whose body holds a double quote
    that nothing escapes. *)
Theorem tcl_quote_unescaped_quote :
  tcl_quote (VStr [DQUOTE]) = VStr [DQUOTE; DQUOTE; DQUOTE]
  /\ literal_body DQUOTE DQUOTE [DQUOTE; DQUOTE; DQUOTE] = Some [DQUOTE]
  /\ has_unescaped (N.eqb DQUOTE) [DQUOTE] = true.
Proof. by vm_compute. Qed.

(** ** The missing-domain callback *)

Section Domain.
Context {RM : Type}.
Variable request : pystr -> RM -> result Pin * RM.

Lemma create_domain_other_name name (w : World RM) :
  name <> lit "sync" -> create_missing_domain request name w = (Ok None, w).
Proof.
  intros H. unfold create_missing_domain, bind, get. by rewrite decide_False.
Qed.

Lemma create_domain_no_clock name (w : World RM) :
  default_clk (self w) = None ->
  create_missing_domain request name w = (Ok None, w).
Proof.
  intros H. unfold create_missing_domain, bind, get. rewrite H.
  by case_decide.
Qed.

Lemma create_domain_fresh_reset (w : World RM) clk pin rm clk_i :
  default_clk (self w) = Some clk ->
  default_rst (self w) = None ->
  request clk (resources (self w)) = (Ok pin, rm) ->
  pin_i pin = Ok clk_i ->
  lit "rst" ∉ map sig_name (ports w ++ [clk_i]) ->
  create_missing_domain request (lit "sync") w =
    (Ok (Some (sync_module clk_i rst_signal)),
     {| self := set_default_rst (lit "rst") (set_resources rm (self w));
        ports := ports w ++ [clk_i; rst_signal];
        environ := environ w |}).
Proof.
  intros Hclk Hrst Hreq Hpin Hfree.
  unfold create_missing_domain, bind, get, self_request, lift, ports_append,
    ports_extend, assert_, update_self, ret.
  rewrite decide_True by done. rewrite Hclk, Hreq, Hpin. cbn [self ports environ].
  cbn [set_resources default_rst]. rewrite Hrst.
  rewrite bool_decide_eq_false_2 by done. cbn [negb self ports environ].
  by rewrite <- app_assoc.
Qed.

Lemma create_domain_clock_refused (w : World RM) clk e rm :
  default_clk (self w) = Some clk ->
  request clk (resources (self w)) = (Raise e, rm) ->
  create_missing_domain request (lit "sync") w =
    (Raise e, {| self := set_resources rm (self w); ports := ports w;
                 environ := environ w |}).
Proof.
  intros Hclk Hreq. unfold create_missing_domain, bind, get, self_request.
  rewrite decide_True by done. by rewrite Hclk, Hreq.
Qed.

Lemma create_domain_clock_no_input (w : World RM) clk pin rm e :
  default_clk (self w) = Some clk ->
  request clk (resources (self w)) = (Ok pin, rm) ->
  pin_i pin = Raise e ->
  create_missing_domain request (lit "sync") w =
    (Raise e, {| self := set_resources rm (self w); ports := ports w;
                 environ := environ w |}).
Proof.
  intros Hclk Hreq Hpin.
  unfold create_missing_domain, bind, get, self_request, lift.
  rewrite decide_True by done. by rewrite Hclk, Hreq, Hpin.
Qed.

Lemma create_domain_declared_reset (w : World RM) clk rst pin rm clk_i :
  default_clk (self w) = Some clk ->
  default_rst (self w) = Some rst ->
  request clk (resources (self w)) = (Ok pin, rm) ->
  pin_i pin = Ok clk_i ->
  create_missing_domain request (lit "sync") w =
    let w1 := {| self := set_resources rm (self w); ports := ports w ++ [clk_i];
                 environ := environ w |} in
    match request rst rm with
    | (Ok pin', rm') =>
        let w2 := {| self := set_resources rm' (self w1); ports := ports w1;
                     environ := environ w |} in
        match pin_i pin' with
        | Ok rst_i => (Ok (Some (sync_module clk_i rst_i)), w2)
        | Raise e => (Raise e, w2)
        end
    | (Raise e, rm') =>
        (Raise e, {| self := set_resources rm' (self w1); ports := ports w1;
                     environ := environ w |})
    end.
Proof.
  intros Hclk Hrst Hreq Hpin.
  unfold create_missing_domain, bind, get, self_request, lift, ports_append,
    ports_extend, ret.
  rewrite decide_True by done. rewrite Hclk, Hreq, Hpin. cbn [self ports environ].
  cbn [set_resources default_rst]. rewrite Hrst.
  cbn [self ports environ].
  change (resources (set_resources rm (self w))) with rm.
  destruct (request rst rm) as [[pin'|e] rm']; cbn [self ports environ lift].
  - destruct (pin_i pin'); reflexivity.
  - reflexivity.
Qed.
End Domain.

(** ** The build plan *)

(** The file templates in the order of their declaration, when the base
    class contributes none; both profiles have the same. *)
Lemma file_templates_declared :
  keys (_container_file_templates []) =
    [ lit "build_{{name}}.sh"; lit "config.tcl"; lit "{{name}}.v";
      lit "{{name}}.debug.v"; lit "{{name}}.sdc" ]
  /\ _local_file_templates [] = _container_file_templates [].
Proof. by vm_compute. Qed.

Lemma rbind_ok {A B} (r : result A) (k : A -> result B) b :
  rbind r k = Ok b -> exists a, r = Ok a /\ k a = Ok b.
Proof. destruct r as [a|e]; [eauto|done]. Qed.

Lemma add_file_ok filename content plan plan' :
  add_file filename content plan = Ok plan' ->
  (filename ∉ keys (files plan))
  /\ files plan' = files plan ++ [(filename, content)]
  /\ script plan' = script plan.
Proof. unfold add_file. case_decide; [done|]. by intros [= <-]. Qed.

Lemma keys_snoc {V} (d : list (pystr * V)) k v : keys (d ++ [(k, v)]) = keys d ++ [k].
Proof. unfold keys. by rewrite map_app. Qed.

Lemma NoDup_keys_snoc {V} (d : list (pystr * V)) k v :
  NoDup (keys d) -> k ∉ keys d -> NoDup (keys (d ++ [(k, v)])).
Proof.
  intros Hd Hk. rewrite keys_snoc. apply NoDup_app. split; [done|].
  split; [|apply NoDup_singleton].
  intros x Hx ->%list_elem_of_singleton. done.
Qed.

Lemma rfold_add_files (R : pystr * pystr -> pystr * pystr -> Prop)
    (F : BuildPlan -> pystr * pystr -> result BuildPlan) :
  (forall plan x plan', F plan x = Ok plan' ->
     exists y, R x y /\ add_file y.1 y.2 plan = Ok plan') ->
  forall l plan plan',
    rfold F l plan = Ok plan' ->
    exists added,
      Forall2 R l added
      /\ files plan' = files plan ++ added
      /\ script plan' = script plan
      /\ (NoDup (keys (files plan)) -> NoDup (keys (files plan'))).
Proof.
  intros HF l. induction l as [|x l IH]; intros plan plan' H.
  - injection H as <-. exists []. by rewrite app_nil_r.
  - cbn [rfold] in H. apply rbind_ok in H as (plan1 & H1 & H2).
    apply HF in H1 as ([f c] & HR & Hadd).
    apply add_file_ok in Hadd as (Hfresh & Hfiles & Hscript).
    apply IH in H2 as (added & Hall & Hfiles' & Hscript' & Hnd).
    exists ((f, c) :: added). split; [by constructor|].
    split; [|split].
    + rewrite Hfiles', Hfiles. by rewrite <- app_assoc.
    + congruence.
    + intros Hnd0. apply Hnd. rewrite Hfiles. by apply NoDup_keys_snoc.
Qed.

Section Plan.
Context {RM : Type}.
Variable request : pystr -> RM -> result Pin * RM.
Variable port_pins : RM -> list Pin.
Variable build_script_templates : list (pystr * pystr).
Variable dedent : pystr -> pystr.
Variable jinja2_render : pystr -> pystr -> RenderContext RM -> result pystr.
Context {Elaboratable Fragment : Type}.
Variable Fragment_get : Elaboratable -> M RM Fragment.
Variable Fragment_prepare :
  Fragment -> (pystr -> M RM (option Module)) -> gmap pystr pyval -> M RM Fragment.
Variable convert_fragment : Fragment -> pystr -> result (pystr * NameMap).
Variable __version__ : pystr.

Lemma assemble_plan_ok (base : RenderContext RM) plan :
  assemble_plan build_script_templates dedent jinja2_render base = Ok plan ->
  exists templates rendered,
    file_templates build_script_templates (ctx_platform base) = Ok templates
    /\ Forall2 (renders_to dedent jinja2_render base) templates rendered
    /\ files plan = rendered ++ extra_files (ctx_platform base)
    /\ NoDup (keys (files plan))
    /\ script plan = lit "build_" ++ ctx_name base.
Proof.
  unfold assemble_plan. intros H.
  apply rbind_ok in H as (templates & Ht & H).
  apply rbind_ok in H as (plan1 & H1 & H2).
  apply (rfold_add_files (renders_to dedent jinja2_render base)) in H1
    as (rendered & Hall & Hfiles & Hscript & Hnd).
  2:{ intros p x p' Hx. apply rbind_ok in Hx as (f & Hf & Hx).
      apply rbind_ok in Hx as (c & Hc & Hx). by exists (f, c). }
  apply (rfold_add_files eq) in H2 as (extra & Hall2 & Hfiles2 & Hscript2 & Hnd2).
  2:{ intros p x p' Hx. exists x. by destruct x. }
  apply list_eq_Forall2 in Hall2 as <-.
  exists templates, rendered. split; [done|]. split; [done|].
  split; [by rewrite Hfiles2, Hfiles|]. split.
  - apply Hnd2, Hnd. constructor.
  - by rewrite Hscript2, Hscript.
Qed.

Lemma bind_ok {A B} (m : M RM A) (k : A -> M RM B) w b w' :
  bind m k w = (Ok b, w') -> exists a w1, m w = (Ok a, w1) /\ k a w1 = (Ok b, w').
Proof.
  unfold bind. destruct (m w) as [[a|e] w1]; [eauto|done].
Qed.

(** C8: a plan that [prepare] returns holds, in the order of the profile's
    file templates, one entry per template pair (the rendered filename and
    the rendered content), then the extra files as they are; no two entries
    share a filename; the entry script is [build_] followed by the name. *)
Theorem prepare_plan (elaboratable : Elaboratable) (name : pystr)
    (kwargs : gmap pystr pyval) (w w' : World RM) (plan : BuildPlan) :
  prepare request port_pins build_script_templates dedent jinja2_render
    Fragment_get Fragment_prepare convert_fragment __version__
    elaboratable name kwargs w = (Ok plan, w') ->
  exists base templates rendered,
    ctx_name base = name
    /\ ctx_platform base = self w'
    /\ file_templates build_script_templates (self w') = Ok templates
    /\ Forall2 (renders_to dedent jinja2_render base) templates rendered
    /\ files plan = rendered ++ extra_files (self w')
    /\ NoDup (keys (files plan))
    /\ script plan = lit "build_" ++ name.
Proof.
  unfold prepare. intros H.
  repeat (let Hm := fresh "Hm" in
          apply bind_ok in H as (? & ? & Hm & H);
          try (unfold get in Hm; injection Hm as <- <-)).
  unfold lift in H. injection H as H <-.
  apply assemble_plan_ok in H as (templates & rendered & Ht & Hall & Hf & Hnd & Hs).
  eexists _, templates, rendered.
  split; [|split; [|split; [exact Ht|split; [exact Hall|split; [exact Hf|split; [exact Hnd|exact Hs]]]]]]; reflexivity.
Qed.
End Plan.


(** ** The toolchain profile and the domain callback, as claimed *)

Section Profiles.
Context {RM : Type}.
Variable request : pystr -> RM -> result Pin * RM.

Lemma keeps_bind {A B} (m : M RM A) (k : A -> M RM B) :
  keeps_toolchain m -> (forall a, keeps_toolchain (k a)) ->
  keeps_toolchain (bind m k).
Proof.
  intros Hm Hk w. unfold bind. specialize (Hm w).
  destruct (m w) as [[a|e] w1]; cbn [snd] in *; [|done].
  by rewrite Hk.
Qed.

Lemma keeps_ret {A} (a : A) : keeps_toolchain (ret (RM := RM) a).
Proof. done. Qed.

Lemma keeps_lift {A} (r : result A) : keeps_toolchain (lift (RM := RM) r).
Proof. done. Qed.

Lemma keeps_get : keeps_toolchain (get (RM := RM)).
Proof. done. Qed.

Lemma keeps_assert b : keeps_toolchain (assert_ (RM := RM) b).
Proof. by destruct b. Qed.

Lemma keeps_ports_extend l : keeps_toolchain (ports_extend (RM := RM) l).
Proof. done. Qed.

Lemma keeps_update_self (f : Platform RM -> Platform RM) :
  (forall p, toolchain (f p) = toolchain p) -> keeps_toolchain (update_self f).
Proof. intros H w. apply H. Qed.

Lemma keeps_request name : keeps_toolchain (self_request request name).
Proof. intros w. unfold self_request. by destruct (request _ _). Qed.

Lemma keeps_create_missing_domain name :
  keeps_toolchain (create_missing_domain request name).
Proof.
  unfold create_missing_domain.
  apply keeps_bind; [apply keeps_get|]. intros w.
  destruct (if decide _ then _ else _); [|apply keeps_ret].
  repeat first
    [ apply keeps_ret | apply keeps_lift | apply keeps_get | apply keeps_assert
    | apply keeps_ports_extend | apply keeps_request
    | by apply keeps_update_self
    | apply keeps_bind; [|intros ?]
    | match goal with |- keeps_toolchain (match ?x with _ => _ end) => destruct x end ].
Qed.
End Profiles.

Section Run.
Context {RM : Type}.
Variable request : pystr -> RM -> result Pin * RM.
Variable port_pins : RM -> list Pin.
Variable build_script_templates : list (pystr * pystr).
Variable dedent : pystr -> pystr.
Variable jinja2_render : pystr -> pystr -> RenderContext RM -> result pystr.
Context {Elaboratable Fragment : Type}.
Variable Fragment_get : Elaboratable -> M RM Fragment.
Variable Fragment_prepare :
  Fragment -> (pystr -> M RM (option Module)) -> gmap pystr pyval -> M RM Fragment.
Variable convert_fragment : Fragment -> pystr -> result (pystr * NameMap).
Variable __version__ : pystr.

Lemma keeps_prepare elaboratable name kwargs :
  keeps_toolchain (Fragment_get elaboratable) ->
  (forall f cb, (forall n, keeps_toolchain (cb n)) ->
                keeps_toolchain (Fragment_prepare f cb kwargs)) ->
  keeps_toolchain
    (prepare request port_pins build_script_templates dedent jinja2_render
       Fragment_get Fragment_prepare convert_fragment __version__
       elaboratable name kwargs).
Proof.
  intros Hget Hprep. unfold prepare.
  repeat first
    [ apply keeps_lift | apply keeps_get | apply keeps_assert
    | apply keeps_ports_extend | exact Hget
    | apply Hprep; apply keeps_create_missing_domain
    | by apply keeps_update_self
    | apply keeps_bind; [|intros ?] ].
Qed.

Lemma rst_signal_fresh (l : list Signal) :
  lit "rst" ∉ map sig_name l -> rst_signal ∉ l.
Proof.
  intros H Hin. apply H. apply list_elem_of_In.
  apply list_elem_of_In in Hin. by apply (in_map sig_name) in Hin.
Qed.

(** C9: the constructor accepts ["Docker"] and ["Local"] and fails on any
    other value; the accepted value is stored, the callback leaves it as it
    is, and so does [prepare] when the elaborator does; the required tools
    are [["docker"]] under ["Docker"] and none under ["Local"]. *)
Theorem toolchain_fixed_profiles (base : Platform RM) (t : pystr) :
  __init__ base t =
    (if bool_decide (t = lit "Docker" \/ t = lit "Local")
     then Ok (set_toolchain t base) else Raise AssertionError)
  /\ toolchain (set_toolchain t base) = Some t
  /\ required_tools (set_toolchain (lit "Docker") base) = Ok [lit "docker"]
  /\ required_tools (set_toolchain (lit "Local") base) = Ok []
  /\ (forall name, keeps_toolchain (create_missing_domain request name))
  /\ (forall elaboratable name kwargs,
        keeps_toolchain (Fragment_get elaboratable) ->
        (forall f cb, (forall n, keeps_toolchain (cb n)) ->
                      keeps_toolchain (Fragment_prepare f cb kwargs)) ->
        keeps_toolchain
          (prepare request port_pins build_script_templates dedent jinja2_render
             Fragment_get Fragment_prepare convert_fragment __version__
             elaboratable name kwargs)).
Proof.
  split; [|split; [done|split; [done|split; [done|split]]]].
  - unfold __init__. destruct (decide (t ∈ [lit "Docker"; lit "Local"])) as [H|H].
    + rewrite bool_decide_eq_true_2; [done|]. rewrite !elem_of_cons in H.
      destruct H as [?|[?|[]%elem_of_nil]]; auto.
    + rewrite bool_decide_eq_false_2; [done|].
      intros H'. apply H. rewrite !elem_of_cons. tauto.
  - apply keeps_create_missing_domain.
  - apply keeps_prepare.
Qed.

(** C2: without a default clock the callback returns nothing and changes
    nothing.  With a default clock whose request gives a pin with an input
    signal, the callback applied to ["sync"] returns a module with exactly
    one domain, [sync], and exactly one submodule, the reset synchronizer,
    and appends the clock signal to the ports; when no default reset is
    declared and no port is named [rst], it also appends a new signal
    named [rst], which is not among the ports before, and records ["rst"]
    as the default reset. *)
Theorem create_domain_sync (w : World RM) :
  (default_clk (self w) = None ->
     forall name, create_missing_domain request name w = (Ok None, w))
  /\ (forall clk pin rm clk_i,
        default_clk (self w) = Some clk ->
        request clk (resources (self w)) = (Ok pin, rm) ->
        pin_i pin = Ok clk_i ->
        (default_rst (self w) = None ->
         lit "rst" ∉ map sig_name (ports w ++ [clk_i]) ->
         exists m w',
           create_missing_domain request (lit "sync") w = (Ok (Some m), w')
           /\ m_domains m = [ {| cd_name := lit "sync" |} ]
           /\ m_submodules m =
                [ (lit "reset_sync",
                   {| rs_arst := rst_signal; rs_domain := lit "sync" |}) ]
           /\ ports w' = ports w ++ [clk_i; rst_signal]
           /\ sig_name rst_signal = lit "rst"
           /\ (rst_signal ∉ ports w ++ [clk_i])
           /\ default_rst (self w') = Some (lit "rst"))
        /\ (forall rst pin' rm' rst_i,
              default_rst (self w) = Some rst ->
              request rst rm = (Ok pin', rm') ->
              pin_i pin' = Ok rst_i ->
              exists m w',
                create_missing_domain request (lit "sync") w = (Ok (Some m), w')
                /\ m_domains m = [ {| cd_name := lit "sync" |} ]
                /\ m_submodules m =
                     [ (lit "reset_sync",
                        {| rs_arst := rst_i; rs_domain := lit "sync" |}) ]
                /\ ports w' = ports w ++ [clk_i]
                /\ default_rst (self w') = Some rst)).
Proof.
  split.
  - intros H name. by apply create_domain_no_clock.
  - intros clk pin rm clk_i Hclk Hreq Hpin. split.
    + intros Hrst Hfree. eexists _, _. split.
      * by apply (create_domain_fresh_reset request w clk pin rm clk_i).
      * repeat split; try done. by apply rst_signal_fresh.
    + intros rst pin' rm' rst_i Hrst Hreq' Hpin'. eexists _, _. split.
      * rewrite (create_domain_declared_reset request w clk rst pin rm clk_i)
          by done.
        cbv zeta. rewrite Hreq', Hpin'. reflexivity.
      * repeat split; try done.
Qed.

(** C10: after the callback has synthesized a reset, the platform's
    [default_rst] is ["rst"], and a later call on that platform, with
    whatever port list, never synthesizes one again: [default_rst] stays
    and at most the clock signal is appended.  What the later call does
    follows the resource manager: a refused request of the clock is its
    error, with the ports as they were and before any reset is looked at;
    past the clock it asks the resource manager for ["rst"], failing as
    that request fails and using its pin's input when it succeeds. *)
Theorem default_rst_persists (w : World RM) clk pin rm clk_i :
  default_clk (self w) = Some clk ->
  default_rst (self w) = None ->
  request clk (resources (self w)) = (Ok pin, rm) ->
  pin_i pin = Ok clk_i ->
  lit "rst" ∉ map sig_name (ports w ++ [clk_i]) ->
  exists m w1,
    create_missing_domain request (lit "sync") w = (Ok (Some m), w1)
    /\ default_rst (self w1) = Some (lit "rst")
    /\ resources (self w1) = rm
    /\ forall ports2 environ2,
         let again := {| self := self w1; ports := ports2; environ := environ2 |} in
         let second := create_missing_domain request (lit "sync") again in
         let after rm' ports' :=
           {| self := set_resources rm' (self w1); ports := ports';
              environ := environ2 |} in
         default_rst (self second.2) = Some (lit "rst")
         /\ (exists added,
               ports second.2 = ports2 ++ added /\ (length added <= 1)%nat)
         /\ (forall e rm2,
               request clk rm = (Raise e, rm2) ->
               second = (Raise e, after rm2 ports2))
         /\ (forall pin2 rm2 e,
               request clk rm = (Ok pin2, rm2) ->
               pin_i pin2 = Raise e ->
               second = (Raise e, after rm2 ports2))
         /\ (forall pin2 rm2 clk_i2,
               request clk rm = (Ok pin2, rm2) ->
               pin_i pin2 = Ok clk_i2 ->
               (forall e rm3,
                  request (lit "rst") rm2 = (Raise e, rm3) ->
                  second = (Raise e, after rm3 (ports2 ++ [clk_i2])))
               /\ (forall pin3 rm3 e,
                     request (lit "rst") rm2 = (Ok pin3, rm3) ->
                     pin_i pin3 = Raise e ->
                     second = (Raise e, after rm3 (ports2 ++ [clk_i2])))
               /\ (forall pin3 rm3 rst_i,
                     request (lit "rst") rm2 = (Ok pin3, rm3) ->
                     pin_i pin3 = Ok rst_i ->
                     second = (Ok (Some (sync_module clk_i2 rst_i)),
                               after rm3 (ports2 ++ [clk_i2])))).
Proof.
  intros Hclk Hrst Hreq Hpin Hfree. eexists _, _. split.
  { by apply (create_domain_fresh_reset request w clk pin rm clk_i). }
  split; [done|]. split; [done|].
  intros ports2 environ2 again second after.
  assert (forall pin2 rm2 clk_i2,
            request clk rm = (Ok pin2, rm2) -> pin_i pin2 = Ok clk_i2 ->
            second =
              match request (lit "rst") rm2 with
              | (Ok pin', rm') =>
                  match pin_i pin' with
                  | Ok rst_i => (Ok (Some (sync_module clk_i2 rst_i)),
                                 after rm' (ports2 ++ [clk_i2]))
                  | Raise e => (Raise e, after rm' (ports2 ++ [clk_i2]))
                  end
              | (Raise e, rm') => (Raise e, after rm' (ports2 ++ [clk_i2]))
              end) as Hpast.
  { intros pin2 rm2 clk_i2 Hreq2 Hpin2. unfold second.
    by rewrite (create_domain_declared_reset request again clk (lit "rst")
                  pin2 rm2 clk_i2 Hclk eq_refl Hreq2 Hpin2). }
  assert (forall e rm2, request clk rm = (Raise e, rm2) ->
                        second = (Raise e, after rm2 ports2)) as Hrefused.
  { intros e rm2 Hreq2.
    exact (create_domain_clock_refused request again clk e rm2 Hclk Hreq2). }
  assert (forall pin2 rm2 e, request clk rm = (Ok pin2, rm2) ->
                             pin_i pin2 = Raise e ->
                             second = (Raise e, after rm2 ports2)) as Hnopin.
  { intros pin2 rm2 e Hreq2 Hpin2.
    exact (create_domain_clock_no_input request again clk pin2 rm2 e
             Hclk Hreq2 Hpin2). }
  assert (default_rst (self second.2) = Some (lit "rst")
          /\ exists added,
               ports second.2 = ports2 ++ added /\ (length added <= 1)%nat)
    as [Hkept Hadded].
  { destruct (request clk rm) as [[pin2|e] rm2] eqn:Hreq2.
    - destruct (pin_i pin2) as [clk_i2|e] eqn:Hpin2.
      + rewrite (Hpast pin2 rm2 clk_i2) by done.
        destruct (request (lit "rst") rm2) as [[pin3|e] rm3];
          [destruct (pin_i pin3)|];
          (split; [done|]; exists [clk_i2]; split; [done|cbn; lia]).
      + rewrite (Hnopin pin2 rm2 e) by done.
        split; [done|]. exists []. split; [by rewrite app_nil_r|cbn; lia].
    - rewrite (Hrefused e rm2) by done.
      split; [done|]. exists []. split; [by rewrite app_nil_r|cbn; lia]. }
  split; [done|]. split; [done|]. split; [done|]. split; [done|].
  intros pin2 rm2 clk_i2 Hreq2 Hpin2.
  rewrite (Hpast pin2 rm2 clk_i2) by done. split; [|split].
  - by intros e rm3 ->.
  - by intros pin3 rm3 e -> ->.
  - by intros pin3 rm3 rst_i -> ->.
Qed.
End Run.

(** ** The theorems at work on the example platform *)

Lemma create_domain_sync_witness :
  create_missing_domain Example.request (lit "sync") Example.no_clock
    = (Ok None, Example.no_clock)
  /\ exists m w',
       create_missing_domain Example.request (lit "sync") Example.world
         = (Ok (Some m), w')
       /\ m_domains m = [ {| cd_name := lit "sync" |} ]
       /\ m_submodules m =
            [ (lit "reset_sync",
               {| rs_arst := rst_signal; rs_domain := lit "sync" |}) ]
       /\ ports w' = ports Example.world ++ [Example.clk_signal; rst_signal]
       /\ sig_name rst_signal = lit "rst"
       /\ (rst_signal ∉ ports Example.world ++ [Example.clk_signal])
       /\ default_rst (self w') = Some (lit "rst").
Proof.
  split.
  - apply (proj1 (create_domain_sync Example.request Example.no_clock)).
    reflexivity.
  - apply (proj1 (proj2 (create_domain_sync Example.request Example.world)
             (lit "clk") Example.clk_pin [lit "clk"] Example.clk_signal
             eq_refl eq_refl eq_refl)).
    + reflexivity.
    + apply (bool_decide_unpack _). vm_compute. exact I.
Defined.

Lemma default_rst_persists_witness :
  exists m w1,
    create_missing_domain Strict.request (lit "sync") Strict.world
      = (Ok (Some m), w1)
    /\ default_rst (self w1) = Some (lit "rst")
    /\ default_rst
         (self (create_missing_domain Strict.request (lit "sync")
                  {| self := self w1; ports := []; environ := ∅ |}).2)
       = Some (lit "rst")
    /\ create_missing_domain Strict.request (lit "sync")
         {| self := self w1; ports := []; environ := ∅ |}
       = (Raise (ExternalError (lit "ResourceError")),
          {| self := set_resources [lit "clk"; lit "clk"] (self w1);
             ports := []; environ := ∅ |}).
Proof.
  assert (lit "rst" ∉ map sig_name (ports Strict.world ++ [Example.clk_signal]))
    as Hfree.
  { apply (bool_decide_unpack _). vm_compute. exact I. }
  destruct (default_rst_persists Strict.request Strict.world (lit "clk")
              Example.clk_pin [lit "clk"] Example.clk_signal
              eq_refl eq_refl eq_refl eq_refl Hfree)
    as (m & w1 & H1 & H2 & _ & H3).
  exists m, w1. split; [exact H1|]. split; [exact H2|].
  destruct (H3 [] ∅) as (Hkept & _ & Hrefused & _).
  split; [exact Hkept|].
  exact (Hrefused (ExternalError (lit "ResourceError")) [lit "clk"; lit "clk"]
           eq_refl).
Defined.

(** C10, as stated, fails on a resource manager that hands out a resource
    once: the first call synthesizes the reset and records ["rst"]; the
    second call on the same platform is refused the clock and raises
    there, the resource manager was asked for ["clk"] twice and never for
    ["rst"], and the ports are as they were. *)
Lemma default_rst_second_call_refused :
  exists w1,
    create_missing_domain Strict.request (lit "sync") Strict.world
      = (Ok (Some (sync_module Example.clk_signal rst_signal)), w1)
    /\ default_rst (self w1) = Some (lit "rst")
    /\ resources (self w1) = [lit "clk"]
    /\ exists w2,
         create_missing_domain Strict.request (lit "sync")
           {| self := self w1; ports := []; environ := ∅ |}
           = (Raise (ExternalError (lit "ResourceError")), w2)
         /\ resources (self w2) = [lit "clk"; lit "clk"]
         /\ ports w2 = [].
Proof.
  eexists. split; [vm_compute; reflexivity|].
  split; [reflexivity|]. split; [reflexivity|].
  eexists. split; [vm_compute; reflexivity|]. by split.
Qed.

Lemma emit_commands_lines_witness :
  let cmd := fun (_ : pystr) (_ : nat) =>
               Example.fill_name (lit "top") 0 (strip docker_command_template) in
  (exists out,
     emit_commands Example.dedent Example.tool_env_var Example.jinja2_render
       Example.context (lit "sh") = Ok out
     /\ split_lines out =
          map (fun t => sh_init (Example.tool_env_var t) t) [lit "docker"]
          ++ imap (fun i _ => collapse (cmd (lit "sh") i)) [docker_command_template]
     /\ line_count out
        = (length [lit "docker"] + length [docker_command_template])%nat)
  /\ (exists out,
     emit_commands Example.dedent Example.tool_env_var Example.jinja2_render
       Example.context (lit "bat") = Ok out
     /\ split_lines out =
          flat_map (fun t => [bat_init_1 (Example.tool_env_var t);
                              bat_init_2 (Example.tool_env_var t) t]) [lit "docker"]
          ++ imap (fun i _ => collapse (cmd (lit "bat") i) ++ lit " || exit /b")
               [docker_command_template]
     /\ line_count out
        = (2 * length [lit "docker"] + length [docker_command_template])%nat).
Proof.
  intros cmd.
  apply (emit_commands_lines Example.dedent Example.tool_env_var
           Example.jinja2_render Example.context [lit "docker"]
           [docker_command_template] cmd).
  - reflexivity.
  - reflexivity.
  - constructor; [|constructor]. apply (bool_decide_unpack _). vm_compute. exact I.
  - intros syntax [|i] command_tpl _ H; [|discriminate H].
    injection H as <-. reflexivity.
Defined.

(** C4, as stated, fails for ["bat"]: with one required tool and one
    command template the output has three lines, two of them initializing
    the tool's variable. *)
Lemma emit_commands_bat_two_lines :
  exists out,
    emit_commands Example.dedent Example.tool_env_var Example.jinja2_render
      Example.context (lit "bat") = Ok out
    /\ required_tools Example.docker = Ok [lit "docker"]
    /\ command_templates Example.docker = Ok [docker_command_template]
    /\ line_count out = 3%nat
    /\ take 2 (split_lines out)
       = [bat_init_1 (lit "DOCKER"); bat_init_2 (lit "DOCKER") (lit "docker")].
Proof. eexists. split; [vm_compute; reflexivity|]. by vm_compute. Qed.

Lemma prepare_plan_witness :
  exists plan w',
    Example.run_prepare = (Ok plan, w')
    /\ exists base templates rendered,
         ctx_name base = lit "top"
         /\ ctx_platform base = self w'
         /\ file_templates [] (self w') = Ok templates
         /\ Forall2 (renders_to Example.dedent Example.jinja2_render base)
              templates rendered
         /\ files plan = rendered ++ extra_files (self w')
         /\ NoDup (keys (files plan))
         /\ script plan = lit "build_" ++ lit "top".
Proof.
  eexists _, _. split; [vm_compute; reflexivity|].
  apply (prepare_plan Example.request Example.port_pins [] Example.dedent
           Example.jinja2_render Example.Fragment_get Example.Fragment_prepare
           Example.convert_fragment (lit "0.3") tt (lit "top")
           {[ lit "ports" := VObj (lit "[]") false ]} Example.world).
  vm_compute. reflexivity.
Defined.

(** * Further properties of the code *)

(** X1: the name check looks at the first character only: the empty name
    and every name that starts with a character of [[A-Za-z0-9_]] pass,
    whatever follows; a name that starts with another character is refused
    with that character cited. *)
Theorem design_name_first_character (name : pystr) :
  check_design_name [] = Ok tt
  /\ (forallb is_word name = true -> check_design_name name = Ok tt)
  /\ (forall c rest,
        name = c :: rest ->
        check_design_name name =
          if is_word c then Ok tt else Raise (ValueError_design_name name [c])).
Proof.
  split; [done|]. split.
  - intros H. rewrite check_design_name_first. destruct name as [|c rest]; [done|].
    cbn [forallb] in H. apply andb_true_iff in H as [-> _]. done.
  - intros c rest ->. by rewrite check_design_name_first.
Qed.

Section Early.
Context {RM Elaboratable Fragment : Type}.
Variable request : pystr -> RM -> result Pin * RM.
Variable port_pins : RM -> list Pin.
Variable build_script_templates : list (pystr * pystr).
Variable dedent : pystr -> pystr.
Variable jinja2_render : pystr -> pystr -> RenderContext RM -> result pystr.
Variable Fragment_get : Elaboratable -> M RM Fragment.
Variable Fragment_prepare :
  Fragment -> (pystr -> M RM (option Module)) -> gmap pystr pyval -> M RM Fragment.
Variable convert_fragment : Fragment -> pystr -> result (pystr * NameMap).
Variable __version__ : pystr.

(** X2: [prepare] stops before the elaborator runs, and leaves the platform
    and the ports as they are, when the name starts with a character
    outside [[A-Za-z0-9_]] (a [ValueError], also when the [ports] keyword
    is missing too) and when the name passes but no [ports] keyword is
    given (an [AssertionError]). *)
Theorem prepare_fails_before_elaboration (elaboratable : Elaboratable)
    (kwargs : gmap pystr pyval) (w : World RM) :
  (forall c rest,
     is_word c = false ->
     prepare request port_pins build_script_templates dedent jinja2_render
       Fragment_get Fragment_prepare convert_fragment __version__
       elaboratable (c :: rest) kwargs w
     = (Raise (ValueError_design_name (c :: rest) [c]), w))
  /\ (forall name,
        check_design_name name = Ok tt ->
        kwargs !! lit "ports" = None ->
        prepare request port_pins build_script_templates dedent jinja2_render
          Fragment_get Fragment_prepare convert_fragment __version__
          elaboratable name kwargs w
        = (Raise AssertionError, w)).
Proof.
  split.
  - intros c rest Hc. unfold prepare, bind, lift.
    rewrite check_design_name_first, Hc. done.
  - intros name Hname Hports. unfold prepare, bind, lift, assert_.
    rewrite Hname, Hports. done.
Qed.

(** X3: when [prepare] returns a plan, this is how the platform got
    there: the elaboration of the design succeeded; then every field
    signal of every pin of the requested ports was appended to the ports,
    pin by pin and field by field; then the elaborator prepared the
    fragment with the missing-domain callback of this platform; then the
    netlist conversion of that fragment succeeded; and the platform
    afterwards is the one the elaborator left with only the name map
    replaced, by the one of the conversion. *)
Theorem prepare_elaboration_steps (elaboratable : Elaboratable) (name : pystr)
    (kwargs : gmap pystr pyval) (w w' : World RM) (plan : BuildPlan) :
  prepare request port_pins build_script_templates dedent jinja2_render
    Fragment_get Fragment_prepare convert_fragment __version__
    elaboratable name kwargs w = (Ok plan, w') ->
  exists design w0 fragment w1 rtlil_text name_map,
    Fragment_get elaboratable w = (Ok design, w0)
    /\ Fragment_prepare design (create_missing_domain request) kwargs
         {| self := self w0;
            ports := ports w0
                     ++ flat_map (fun pin => map snd (pin_fields pin))
                          (port_pins (resources (self w0)));
            environ := environ w0 |}
       = (Ok fragment, w1)
    /\ convert_fragment fragment name = Ok (rtlil_text, name_map)
    /\ w' = {| self := set_name_map name_map (self w1); ports := ports w1;
               environ := environ w1 |}
    /\ is_Some (kwargs !! lit "ports")
    /\ check_design_name name = Ok tt.
Proof.
  unfold prepare. intros H.
  apply bind_ok in H as ([] & wa & Hname & H).
  apply bind_ok in H as ([] & wb & Hports & H).
  apply bind_ok in H as (design & w0 & Hget & H).
  apply bind_ok in H as (? & ? & Hm & H).
  unfold get in Hm. injection Hm as <- <-.
  apply bind_ok in H as ([] & wc & Hext & H).
  apply bind_ok in H as (fragment & w1 & Hprep & H).
  apply bind_ok in H as ([rtlil_text name_map] & wd & Hconv & H).
  apply bind_ok in H as ([] & we & Hupd & H).
  apply bind_ok in H as (? & ? & Hm & H).
  unfold get in Hm. injection Hm as <- <-.
  unfold lift in H, Hname, Hconv. 
  destruct (check_design_name name) as [[]|] eqn:Hcheck; [|done].
  injection Hname as <-.
  unfold assert_ in Hports.
  case_bool_decide as Hk; [|done]. unfold ret in Hports. injection Hports as <-.
  unfold ports_extend in Hext. injection Hext as <-.
  destruct (convert_fragment fragment name) as [conv|] eqn:Hc; [|done].
  injection Hconv as -> <-.
  unfold update_self in Hupd. injection Hupd as <-.
  destruct (assemble_plan _) in H; [|done]. injection H as _ <-.
  exists design, w0, fragment, w1, rtlil_text, name_map.
  repeat split; try done.
Qed.
End Early.

Lemma prepare_elaboration_steps_witness :
  exists plan w',
    Example.run_prepare = (Ok plan, w')
    /\ exists design w0 fragment w1 rtlil_text name_map,
         Example.Fragment_get tt Example.world = (Ok design, w0)
         /\ Example.Fragment_prepare design
              (create_missing_domain Example.request)
              {[ lit "ports" := VObj (lit "[]") false ]}
              {| self := self w0;
                 ports := ports w0
                          ++ flat_map (fun pin => map snd (pin_fields pin))
                               (Example.port_pins (resources (self w0)));
                 environ := environ w0 |}
            = (Ok fragment, w1)
         /\ Example.convert_fragment fragment (lit "top")
            = Ok (rtlil_text, name_map)
         /\ w' = {| self := set_name_map name_map (self w1); ports := ports w1;
                    environ := environ w1 |}
         /\ is_Some (({[ lit "ports" := VObj (lit "[]") false ]}
                        : gmap pystr pyval) !! lit "ports")
         /\ check_design_name (lit "top") = Ok tt.
Proof.
  eexists _, _. split; [vm_compute; reflexivity|].
  eapply (prepare_elaboration_steps Example.request Example.port_pins []
            Example.dedent Example.jinja2_render Example.Fragment_get
            Example.Fragment_prepare Example.convert_fragment (lit "0.3") tt
            (lit "top") {[ lit "ports" := VObj (lit "[]") false ]} Example.world).
  vm_compute. reflexivity.
Defined.

Section Verbosity.
Variable dedent : pystr -> pystr.
Variable environ : gmap pystr pystr.
Variable kwargs : gmap pystr pyval.

(** X4: exactly one of [verbose] and [quiet] passes its argument on, the
    other gives the undefined marker; when the environment variable
    [AMARANTH_ENV_verbose] is set it decides alone, whatever the keyword
    says: empty or the quoted empty string turns verbose off, every other
    value (also ["0"]) turns it on. *)
Theorem verbose_quiet_environment (arg : pyval) :
  ((verbose dedent environ kwargs arg = arg
    /\ quiet dedent environ kwargs arg = VUndefined (lit "quiet"))
   \/ (verbose dedent environ kwargs arg = VUndefined (lit "quiet")
       /\ quiet dedent environ kwargs arg = arg))
  /\ (forall value,
        environ !! lit "AMARANTH_ENV_verbose" = Some value ->
        if bool_decide (value = [] \/ value = [DQUOTE; DQUOTE])
        then verbose dedent environ kwargs arg = VUndefined (lit "quiet")
             /\ quiet dedent environ kwargs arg = arg
        else verbose dedent environ kwargs arg = arg
             /\ quiet dedent environ kwargs arg = VUndefined (lit "quiet")).
Proof.
  split.
  - unfold verbose, quiet. destruct (truthy _); auto.
  - intros value Hv. unfold verbose, quiet.
    rewrite get_override_precedence.
    assert (environ !! (lit "AMARANTH_ENV_" ++ lit "verbose") = Some value) as ->
      by exact Hv.
    cbn [truthy].
    case_bool_decide as Hd.
    + destruct Hd as [-> | ->]; done.
    + repeat case_decide; subst; try done.
      * exfalso. apply Hd. by right.
      * rewrite bool_decide_eq_false_2; [done|]. intros ->. apply Hd. by left.
Qed.
End Verbosity.

(** ** The escaping filters *)

Lemma tcl_escape_quote_spec_aux (v : pyval) :
  tcl_escape v =
    (if is_markup v then v
     else VStr ([LBRACE] ++ backslash_escape [LBRACE; RBRACE; BACKSLASH] (py_str v)
                ++ [RBRACE]))
  /\ tcl_quote v =
    (if is_markup v then v
     else VStr ([DQUOTE] ++ backslash_escape [DOLLAR; LBRACKET; BACKSLASH] (py_str v)
                ++ [DQUOTE])).
Proof.
  unfold tcl_escape, tcl_quote, tcl_escape_pattern, tcl_quote_pattern.
  split; destruct (is_markup v); try done.
  - by rewrite (sub_backslash [LBRACE; RBRACE; BACKSLASH]).
  - by rewrite (sub_backslash [DOLLAR; LBRACKET; BACKSLASH]).
Qed.

Lemma unescape_backslash_escape (special : list char) (s : pystr) :
  BACKSLASH ∈ special ->
  unescape_backslashes false (backslash_escape special s) = s.
Proof.
  intros Hb. unfold backslash_escape. induction s as [|c s IH]; [done|].
  cbn [flat_map]. case_bool_decide as Hc.
  - cbn [app unescape_backslashes]. by rewrite N.eqb_refl, IH.
  - cbn [app unescape_backslashes].
    destruct (N.eqb_spec c BACKSLASH) as [->|_]; [done|]. by rewrite IH.
Qed.

(** X5: in what [tcl_escape] puts between the braces no brace stands
    without a backslash before it, in what [tcl_quote] puts between the
    quotes no dollar and no open bracket does, and neither body ends in a
    backslash that escapes nothing. *)
Theorem tcl_literals_escape_specials (v : pyval) :
  is_markup v = false ->
  exists braced quoted,
    tcl_escape v = VStr ([LBRACE] ++ braced ++ [RBRACE])
    /\ has_unescaped (fun c => (c =? LBRACE) || (c =? RBRACE)) braced = false
    /\ tcl_quote v = VStr ([DQUOTE] ++ quoted ++ [DQUOTE])
    /\ has_unescaped (fun c => (c =? DOLLAR) || (c =? LBRACKET)) quoted = false.
Proof.
  intros Hm. destruct (tcl_escape_quote_spec_aux v) as [He Hq].
  rewrite Hm in He, Hq. eexists _, _. split; [exact He|]. split.
  - apply backslash_escape_clean; [by apply (bool_decide_unpack _)|].
    intros c [H|H]%orb_true_iff; apply N.eqb_eq in H; subst;
      by apply (bool_decide_unpack _).
  - split; [exact Hq|]. apply backslash_escape_clean; [by apply (bool_decide_unpack _)|].
    intros c [H|H]%orb_true_iff; apply N.eqb_eq in H; subst;
      by apply (bool_decide_unpack _).
Qed.

Lemma tcl_literals_escape_specials_witness :
  is_markup (VStr (lit "a{b}$c[d]")) = false
  /\ exists braced quoted,
       tcl_escape (VStr (lit "a{b}$c[d]")) = VStr ([LBRACE] ++ braced ++ [RBRACE])
       /\ has_unescaped (fun c => (c =? LBRACE) || (c =? RBRACE)) braced = false
       /\ tcl_quote (VStr (lit "a{b}$c[d]")) = VStr ([DQUOTE] ++ quoted ++ [DQUOTE])
       /\ has_unescaped (fun c => (c =? DOLLAR) || (c =? LBRACKET)) quoted = false.
Proof.
  split; [reflexivity|].
  apply (tcl_literals_escape_specials (VStr (lit "a{b}$c[d]"))). reflexivity.
Defined.

(** X6: taking the delimiters and the escaping backslashes away from the
    result of [tcl_escape] or of [tcl_quote] gives [str()] of the value
    back. *)
Theorem tcl_literals_unescape (v : pyval) :
  is_markup v = false ->
  exists braced quoted,
    tcl_escape v = VStr ([LBRACE] ++ braced ++ [RBRACE])
    /\ unescape_backslashes false braced = py_str v
    /\ tcl_quote v = VStr ([DQUOTE] ++ quoted ++ [DQUOTE])
    /\ unescape_backslashes false quoted = py_str v.
Proof.
  intros Hm. destruct (tcl_escape_quote_spec_aux v) as [He Hq].
  rewrite Hm in He, Hq. eexists _, _. split; [exact He|]. split.
  - apply unescape_backslash_escape. by apply (bool_decide_unpack _).
  - split; [exact Hq|]. apply unescape_backslash_escape.
    by apply (bool_decide_unpack _).
Qed.

Lemma tcl_literals_unescape_witness :
  is_markup (VStr (lit "a{b}$c[d]")) = false
  /\ exists braced quoted,
       tcl_escape (VStr (lit "a{b}$c[d]")) = VStr ([LBRACE] ++ braced ++ [RBRACE])
       /\ unescape_backslashes false braced = py_str (VStr (lit "a{b}$c[d]"))
       /\ tcl_quote (VStr (lit "a{b}$c[d]")) = VStr ([DQUOTE] ++ quoted ++ [DQUOTE])
       /\ unescape_backslashes false quoted = py_str (VStr (lit "a{b}$c[d]")).
Proof.
  split; [reflexivity|].
  apply (tcl_literals_unescape (VStr (lit "a{b}$c[d]"))). reflexivity.
Defined.

Section Resolution.
Variable dedent : pystr -> pystr.
Variable environ : gmap pystr pystr.
Variable kwargs : gmap pystr pyval.

(** X7: the sources of an option, in order.  A set environment variable
    wins and the keyword is not looked at; its value comes back as a str,
    as it is unless it is the quoted empty string (alone or before one
    final newline).  Otherwise a str keyword comes back dedented and
    stripped, any other keyword value as it is, and with neither the
    undefined marker that carries the option's name. *)
Theorem get_override_sources (var : pystr) :
  (forall value : pystr,
     environ !! (lit "AMARANTH_ENV_" ++ var : pystr) = Some value ->
     get_override dedent environ kwargs var = get_override dedent environ ∅ var
     /\ (value <> [DQUOTE; DQUOTE] -> value <> [DQUOTE; DQUOTE; NEWLINE] ->
         get_override dedent environ kwargs var = VStr value)
     /\ (value = [DQUOTE; DQUOTE] -> get_override dedent environ kwargs var = VStr []))
  /\ (environ !! (lit "AMARANTH_ENV_" ++ var : pystr) = None ->
      (forall v, kwargs !! var = Some v -> is_str v = true ->
                 get_override dedent environ kwargs var
                 = VStr (strip (dedent (py_str v))))
      /\ (forall v, kwargs !! var = Some v -> is_str v = false ->
                    get_override dedent environ kwargs var = v)
      /\ (kwargs !! var = None ->
          get_override dedent environ kwargs var = VUndefined var)).
Proof.
  split.
  - intros value Hv. rewrite !get_override_precedence.
    unfold pystr in *. rewrite Hv.
    split; [done|]. split.
    + intros H1 H2. by rewrite !decide_False.
    + intros ->. by rewrite decide_True.
  - intros Hv. rewrite get_override_precedence.
    unfold pystr in *. rewrite Hv. split; [|split].
    + intros v -> Hs. by rewrite Hs.
    + intros v -> Hs. by rewrite Hs.
    + by intros ->.
Qed.
End Resolution.

(** ** Identifier escaping *)

Lemma escape_char_of_word c : is_word c = true -> escape_char c = [c].
Proof. unfold escape_char. by intros ->. Qed.

Lemma flat_map_escape_words (s : pystr) :
  Forall (fun c => is_word c = true) s -> flat_map escape_char s = s.
Proof.
  induction 1 as [|c s Hc _ IH]; [done|].
  cbn [flat_map]. by rewrite escape_char_of_word, IH.
Qed.

(** X8: [ascii_escape] leaves a string of characters of [[A-Za-z0-9_]] as
    it is, and so it leaves its own output as it is: escaping twice is
    escaping once. *)
Theorem ascii_escape_idempotent (s : pystr) :
  exists out,
    ascii_escape s = Ok out
    /\ ascii_escape out = Ok out
    /\ (Forall (fun c => is_word c = true) s -> out = s).
Proof.
  exists (flat_map escape_char s). rewrite !ascii_escape_spec.
  split; [done|]. split.
  - f_equal. apply flat_map_escape_words.
    apply Forall_flat_map, Forall_forall. intros c _. apply escape_char_word.
  - intros H. by apply flat_map_escape_words.
Qed.

Lemma format_02x_byte n : n < 256 -> length (format_02x n) = 2%nat.
Proof.
  intros H.
  assert (forallb (fun k => Nat.eqb (length (format_02x (N.of_nat k))) 2)
            (seq 0 256) = true) as Hall by (by vm_compute).
  rewrite forallb_forall in Hall.
  specialize (Hall (N.to_nat n)). rewrite N2Nat.id in Hall.
  apply Nat.eqb_eq, Hall, in_seq. lia.
Qed.

(** X9: on code points below 256 an escape sequence is four characters,
    the underscores and two digits, so the output is as long as the input
    plus three for every character outside [[A-Za-z0-9_]]; on a code point
    from 256 on the sequence is longer. *)
Theorem ascii_escape_length (s : pystr) :
  Forall (fun c => c < 256) s ->
  exists out,
    ascii_escape s = Ok out
    /\ length out = (length s + 3 * count_escaped s)%nat
    /\ ascii_escape [256] = Ok (lit "_100_").
Proof.
  intros Hs. exists (flat_map escape_char s). rewrite ascii_escape_spec.
  split; [done|]. split; [|by vm_compute]. unfold count_escaped.
  induction Hs as [|c s Hc _ IH]; [done|].
  cbn [flat_map List.filter]. rewrite length_app, IH. unfold escape_char.
  destruct (is_word c); cbn [negb length app].
  - lia.
  - rewrite length_app, format_02x_byte by done. cbn [length]. lia.
Qed.

Lemma ascii_escape_length_witness :
  Forall (fun c => c < 256) (lit "a-b.c")
  /\ exists out,
       ascii_escape (lit "a-b.c") = Ok out
       /\ length out = (length (lit "a-b.c") + 3 * count_escaped (lit "a-b.c"))%nat
       /\ ascii_escape [256] = Ok (lit "_100_").
Proof.
  assert (Forall (fun c => c < 256) (lit "a-b.c")) as H
    by (repeat constructor).
  split; [exact H|]. apply (ascii_escape_length (lit "a-b.c")). exact H.
Defined.

(** ** Command assembly: what goes wrong *)

Lemma rmap_raise {A B} (f : A -> result B) (l : list A) x e :
  l !! 0%nat = Some x -> f x = Raise e -> rmap f l = Raise e.
Proof. destruct l as [|y l]; [done|]. intros [= ->] H. cbn [rmap]. by rewrite H. Qed.

Section EmitErrors.
Context {RM : Type}.
Variable dedent : pystr -> pystr.
Variable tool_env_var : pystr -> pystr.
Variable jinja2_render : pystr -> pystr -> RenderContext RM -> result pystr.

(** X10: [emit_commands] raises an [AssertionError] on a platform whose
    toolchain is neither ["Docker"] nor ["Local"], and under ["Docker"]
    for every syntax but ["sh"] and ["bat"], before any template is
    rendered; for ["sh"] and ["bat"] an error of the renderer on the
    command template is the error of [emit_commands]. *)
Theorem emit_commands_errors (base : RenderContext RM) (syntax : pystr) :
  (toolchain (ctx_platform base) <> Some (lit "Docker") ->
   toolchain (ctx_platform base) <> Some (lit "Local") ->
   emit_commands dedent tool_env_var jinja2_render base syntax = Raise AssertionError)
  /\ (toolchain (ctx_platform base) = Some (lit "Docker") ->
      syntax <> lit "sh" -> syntax <> lit "bat" ->
      emit_commands dedent tool_env_var jinja2_render base syntax
      = Raise AssertionError)
  /\ (forall templates command_tpl e,
        command_templates (ctx_platform base) = Ok templates ->
        templates !! 0%nat = Some command_tpl ->
        syntax = lit "sh" \/ syntax = lit "bat" ->
        render dedent jinja2_render base command_tpl (command_origin 0) (Some syntax)
        = Raise e ->
        emit_commands dedent tool_env_var jinja2_render base syntax = Raise e).
Proof.
  split; [|split].
  - intros H1 H2. unfold emit_commands, required_tools.
    by rewrite !decide_False.
  - intros Hd H1 H2. unfold emit_commands, required_tools.
    rewrite decide_True by done. cbn [rbind _container_required_tools rmap].
    by rewrite !decide_False.
  - intros templates command_tpl e Ht H0 Hs Hr. unfold emit_commands.
    assert (exists tools, required_tools (ctx_platform base) = Ok tools) as [tools Htools].
    { unfold required_tools, command_templates in *.
      repeat case_decide; try done; eauto. }
    rewrite Htools, Ht. cbn [rbind].
    rewrite (rmap_ok _ (fun t =>
               if decide (syntax = lit "sh") then sh_init (tool_env_var t) t
               else bat_init_1 (tool_env_var t) ++ NEWLINE
                    :: bat_init_2 (tool_env_var t) t)).
    2:{ apply Forall_forall. intros t _. destruct Hs as [-> | ->].
        - by rewrite !decide_True.
        - rewrite !decide_False by (by vm_compute). rewrite decide_True by done.
          unfold bat_init_1, bat_init_2. f_equal. by rewrite <- !app_assoc. }
    cbn [rbind].
    rewrite (rmap_raise _ (enumerate templates) (0%nat, command_tpl) e); [done| |].
    + unfold enumerate. destruct templates; [done|]. by injection H0 as ->.
    + cbn [fst snd]. unfold command_origin in Hr. by rewrite Hr.
Qed.
End EmitErrors.

(** ** The file templates of the profiles *)

Lemma keys_dict_set {V} k (v : V) d :
  keys (dict_set k v d) = if decide (k ∈ keys d) then keys d else keys d ++ [k].
Proof.
  induction d as [|[k' v'] d IH]; [done|]. cbn [dict_set keys map fst] in *.
  destruct (decide (k = k')) as [->|Hne].
  - rewrite decide_True by left. done.
  - cbn [map fst]. change (map fst (dict_set k v d)) with (keys (dict_set k v d)).
    rewrite IH. change (map fst d) with (keys d).
    destruct (decide (k ∈ keys d)) as [Hin|Hnin].
    + rewrite decide_True by (by right). done.
    + rewrite decide_False; [done|]. by intros [?|?]%elem_of_cons.
Qed.

Lemma dict_get_set {V} k k' (v : V) d :
  dict_get k' (dict_set k v d) = if decide (k' = k) then Some v else dict_get k' d.
Proof.
  induction d as [|[k0 v0] d IH].
  - cbn. by destruct (decide (k' = k)).
  - cbn [dict_set]. destruct (decide (k = k0)) as [->|Hne].
    + cbn [dict_get]. by destruct (decide (k' = k0)).
    + cbn [dict_get]. rewrite IH.
      destruct (decide (k' = k0)) as [->|]; [|done].
      by rewrite decide_False.
Qed.

Lemma NoDup_keys_dict_set {V} k (v : V) d :
  NoDup (keys d) -> NoDup (keys (dict_set k v d)).
Proof.
  intros H. rewrite keys_dict_set. case_decide; [done|].
  apply NoDup_app. split; [done|]. split; [|apply NoDup_singleton].
  by intros x Hx ->%list_elem_of_singleton.
Qed.

Lemma keys_app {V} (a b : list (pystr * V)) : keys (a ++ b) = keys a ++ keys b.
Proof. unfold keys. apply map_app. Qed.

Lemma fold_dict_set_keys {V} (items : list (pystr * V)) : forall d,
  NoDup (keys d) ->
  NoDup (keys (fold_left (fun d kv => dict_set kv.1 kv.2 d) items d))
  /\ (forall k, k ∈ keys (fold_left (fun d kv => dict_set kv.1 kv.2 d) items d)
                <-> k ∈ keys d \/ k ∈ keys items).
Proof.
  induction items as [|[k v] items IH]; intros d Hd.
  - cbn. split; [done|]. intros k. rewrite elem_of_nil. tauto.
  - cbn [fold_left fst snd]. destruct (IH (dict_set k v d)) as [Hnd Hk].
    { by apply NoDup_keys_dict_set. }
    split; [done|]. intros k'. rewrite Hk, keys_dict_set.
    cbn [keys map fst]. change (map fst items) with (keys items).
    rewrite elem_of_cons. case_decide as Hin.
    + split; [tauto|]. intros [?|[->|?]]; tauto.
    + rewrite elem_of_app, list_elem_of_singleton. tauto.
Qed.

Lemma fold_dict_set_get {V} (items : list (pystr * V)) k : forall d,
  k ∉ keys items ->
  dict_get k (fold_left (fun d kv => dict_set kv.1 kv.2 d) items d) = dict_get k d.
Proof.
  induction items as [|[k' v'] items IH]; intros d Hk; [done|].
  cbn [keys map fst] in Hk. apply not_elem_of_cons in Hk as [Hne Hk].
  cbn [fold_left fst snd]. rewrite IH by done. rewrite dict_get_set.
  by rewrite decide_False.
Qed.

Lemma fold_dict_set_append {V} (items : list (pystr * V)) : forall d,
  NoDup (keys (d ++ items)) ->
  fold_left (fun d kv => dict_set kv.1 kv.2 d) items d = d ++ items.
Proof.
  induction items as [|[k v] items IH]; intros d Hnd.
  - by rewrite app_nil_r.
  - cbn [fold_left fst snd].
    assert (dict_set k v d = d ++ [(k, v)]) as ->.
    { assert (k ∉ keys d) as Hk.
      { rewrite keys_app in Hnd.
        apply NoDup_app in Hnd as (_ & Hd & _). intros Hin.
        apply (Hd k Hin). cbn. left. }
      clear -Hk. induction d as [|[k0 v0] d IH]; [done|].
      cbn [keys map fst] in Hk. apply not_elem_of_cons in Hk as [Hne Hk].
      cbn [dict_set app]. rewrite decide_False by done. by rewrite IH. }
    rewrite IH; [by rewrite <- app_assoc|]. by rewrite <- app_assoc.
Qed.

Lemma dict_of_items_fixed {V} (d : list (pystr * V)) :
  NoDup (keys d) -> dict_of_items d = d.
Proof. intros H. unfold dict_of_items. by rewrite fold_dict_set_append. Qed.

(** X11: whatever file templates the base class declares, the profile's
    dictionary has no name twice; it keeps every inherited name and holds
    the five names of the platform; under the name [build_{{name}}.sh] it
    holds the platform's own script, not an inherited one; and the two
    profiles have the same file templates. *)
Theorem file_templates_merge (build_script_templates : list (pystr * pystr)) :
  NoDup (keys (_common_file_templates build_script_templates))
  /\ (forall k, k ∈ keys (_common_file_templates build_script_templates) <->
                k ∈ keys build_script_templates
                \/ k ∈ [ lit "build_{{name}}.sh"; lit "config.tcl"; lit "{{name}}.v";
                         lit "{{name}}.debug.v"; lit "{{name}}.sdc" ])
  /\ dict_get (lit "build_{{name}}.sh") (_common_file_templates build_script_templates)
     = Some build_sh_template
  /\ _container_file_templates build_script_templates
     = _common_file_templates build_script_templates
  /\ _local_file_templates build_script_templates
     = _common_file_templates build_script_templates.
Proof.
  assert (NoDup (keys (_common_file_templates build_script_templates))
          /\ forall k, k ∈ keys (_common_file_templates build_script_templates) <->
               k ∈ keys (@nil (pystr * pystr))
               \/ k ∈ keys (build_script_templates ++
                    [ (lit "build_{{name}}.sh", build_sh_template);
                      (lit "config.tcl", config_tcl_template);
                      (lit "{{name}}.v", verilog_template);
                      (lit "{{name}}.debug.v", debug_verilog_template);
                      (lit "{{name}}.sdc", sdc_template) ])) as [Hnd Hk].
  { apply fold_dict_set_keys. constructor. }
  split; [done|]. split; [|split; [|split]].
  - intros k. rewrite Hk, keys_app.
    cbn [keys map fst]. rewrite elem_of_nil, elem_of_app. tauto.
  - unfold _common_file_templates, dict_of_items. rewrite fold_left_app.
    cbn [fold_left fst snd].
    rewrite !dict_get_set.
    rewrite !(decide_False (P := lit "build_{{name}}.sh" = _)) by (by vm_compute).
    by rewrite decide_True.
  - unfold _container_file_templates. by apply dict_of_items_fixed.
  - unfold _local_file_templates. by apply dict_of_items_fixed.
Qed.

(** ** The profile of a constructed platform *)

(** X12: on a platform that the constructor returned, the three profile
    properties never reach their [assert False]: each gives its table,
    with one command template; on an object whose toolchain was never set
    all three raise. *)
Theorem profile_of_constructed_platform {RM : Type}
    (build_script_templates : list (pystr * pystr))
    (base p : Platform RM) (t : pystr) :
  __init__ base t = Ok p ->
  (exists tools commands files,
     required_tools p = Ok tools
     /\ command_templates p = Ok commands
     /\ file_templates build_script_templates p = Ok files
     /\ length commands = 1%nat
     /\ (tools = [] <-> t = lit "Local"))
  /\ (toolchain base = None ->
      required_tools base = Raise AssertionError
      /\ command_templates base = Raise AssertionError
      /\ file_templates build_script_templates base = Raise AssertionError).
Proof.
  unfold __init__. case_decide as Ht; [|done]. intros [= <-]. split.
  - unfold required_tools, command_templates, file_templates.
    cbn [set_toolchain toolchain].
    rewrite !elem_of_cons in Ht. destruct Ht as [->|[->|[]%elem_of_nil]].
    + rewrite !decide_True by done. eexists _, _, _.
      repeat split; try done; try (by intros [=]).
    + rewrite !(decide_False (P := Some (lit "Local") = Some (lit "Docker")))
        by (by vm_compute).
      rewrite !decide_True by done. eexists _, _, _. by repeat split.
  - intros Hb. unfold required_tools, command_templates, file_templates.
    rewrite Hb. by rewrite !decide_False.
Qed.

Lemma profile_of_constructed_platform_witness :
  __init__ Example.base (lit "Docker") = Ok Example.docker
  /\ (exists tools commands files,
        required_tools Example.docker = Ok tools
        /\ command_templates Example.docker = Ok commands
        /\ file_templates [] Example.docker = Ok files
        /\ length commands = 1%nat
        /\ (tools = [] <-> lit "Docker" = lit "Local"))
  /\ (toolchain Example.base = None ->
      required_tools Example.base = Raise AssertionError
      /\ command_templates Example.base = Raise AssertionError
      /\ file_templates [] Example.base = Raise AssertionError).
Proof.
  split; [reflexivity|].
  apply (profile_of_constructed_platform [] Example.base Example.docker
           (lit "Docker")).
  reflexivity.
Defined.

(** ** The missing-domain callback: names, failures, frame *)

Section Callback.
Context {RM : Type}.
Variable request : pystr -> RM -> result Pin * RM.

(** X13: the callback declines (returns [None]) exactly when the domain
    is not named [sync] or the platform has no default clock, and then it
    leaves the platform and the ports as they are: no resource is
    requested and no port is appended. *)
Theorem create_domain_declines (name : pystr) (w : World RM) :
  ((create_missing_domain request name w).1 = Ok None
   <-> (name <> lit "sync" \/ default_clk (self w) = None))
  /\ ((create_missing_domain request name w).1 = Ok None ->
      create_missing_domain request name w = (Ok None, w)).
Proof.
  assert ((create_missing_domain request name w).1 = Ok None ->
          name <> lit "sync" \/ default_clk (self w) = None) as Hdecl.
  { unfold create_missing_domain, bind, get, self_request, lift, ports_append,
      ports_extend, assert_, raise, ret, update_self.
    destruct (decide (name = lit "sync")) as [->|Hn]; [|by left].
    destruct (default_clk (self w)) as [clk|]; [|by right].
    destruct (request clk _) as [[pin|e] rm]; [|done].
    destruct (pin_i pin) as [clk_i|e]; [|done].
    cbn [self ports environ set_resources default_rst resources].
    destruct (default_rst (self w)) as [rst|].
    - destruct (request rst _) as [[pin'|e] rm']; [destruct (pin_i pin')|]; done.
    - by destruct (bool_decide _). }
  assert (name <> lit "sync" \/ default_clk (self w) = None ->
          create_missing_domain request name w = (Ok None, w)) as Hsame.
  { intros H. unfold create_missing_domain, bind, get.
    destruct (decide (name = lit "sync")) as [->|Hn]; [|done].
    destruct H as [H|H]; [done|]. by rewrite H. }
  split; [split; [done|]|].
  - intros H. by rewrite (Hsame H).
  - intros H. by apply Hsame, Hdecl.
Qed.

(** X14: how the callback fails.  When the request of the clock fails the
    ports are as before.  When the clock's pin has no input signal, or a
    port is already named [rst] while a reset has to be synthesized, the
    error comes after the request was made; in the second case the clock
    signal is already appended to the ports, and no default reset is
    recorded. *)
Theorem create_domain_failures (w : World RM) (clk : pystr) :
  default_clk (self w) = Some clk ->
  (forall e rm,
     request clk (resources (self w)) = (Raise e, rm) ->
     create_missing_domain request (lit "sync") w
     = (Raise e, {| self := set_resources rm (self w); ports := ports w;
                    environ := environ w |}))
  /\ (forall pin rm,
        request clk (resources (self w)) = (Ok pin, rm) ->
        pin_i pin = Raise AttributeError ->
        create_missing_domain request (lit "sync") w
        = (Raise AttributeError,
           {| self := set_resources rm (self w); ports := ports w;
              environ := environ w |}))
  /\ (forall pin rm clk_i,
        request clk (resources (self w)) = (Ok pin, rm) ->
        pin_i pin = Ok clk_i ->
        default_rst (self w) = None ->
        lit "rst" ∈ map sig_name (ports w ++ [clk_i]) ->
        create_missing_domain request (lit "sync") w
        = (Raise AssertionError,
           {| self := set_resources rm (self w); ports := ports w ++ [clk_i];
              environ := environ w |})).
Proof.
  intros Hclk. split; [|split].
  - intros e rm Hreq.
    unfold create_missing_domain, bind, get, self_request.
    rewrite decide_True by done. by rewrite Hclk, Hreq.
  - intros pin rm Hreq Hpin.
    unfold create_missing_domain, bind, get, self_request, lift.
    rewrite decide_True by done. by rewrite Hclk, Hreq, Hpin.
  - intros pin rm clk_i Hreq Hpin Hrst Hin.
    unfold create_missing_domain, bind, get, self_request, lift, ports_append,
      ports_extend, assert_, raise.
    rewrite decide_True by done. rewrite Hclk, Hreq, Hpin. cbn [self ports environ].
    cbn [set_resources default_rst]. rewrite Hrst.
    by rewrite bool_decide_eq_true_2.
Qed.

(** X15: whatever its result, the callback only appends to the ports, at
    most two signals, and of the platform it changes at most the resource
    manager's state and the default reset, which it sets to ["rst"] or
    leaves; the default clock, the build directory, the name map, the
    extra files and the environment stay. *)
Theorem create_domain_frame (name : pystr) (w : World RM) :
  let w' := (create_missing_domain request name w).2 in
  (exists added, ports w' = ports w ++ added /\ (length added <= 2)%nat)
  /\ (default_rst (self w') = default_rst (self w)
      \/ default_rst (self w') = Some (lit "rst"))
  /\ default_clk (self w') = default_clk (self w)
  /\ _build_dir (self w') = _build_dir (self w)
  /\ _name_map (self w') = _name_map (self w)
  /\ extra_files (self w') = extra_files (self w)
  /\ environ w' = environ w.
Proof.
  assert (forall l : list Signal, l = l ++ []) as Hnil
    by (intros l; by rewrite app_nil_r).
  cbv zeta.
  unfold create_missing_domain, bind, get, self_request, lift, ports_append,
    ports_extend, assert_, raise, ret, update_self.
  destruct (if decide _ then _ else _) as [clk|];
    [|cbn [snd]; split; [exists []; split; [apply Hnil|cbn; lia]|tauto]].
  destruct (request clk _) as [[pin|e] rm];
    [|cbn [snd self ports environ set_resources default_rst default_clk
           _build_dir _name_map extra_files];
      split; [exists []; split; [apply Hnil|cbn; lia]|tauto]].
  destruct (pin_i pin) as [clk_i|e];
    [|cbn [snd self ports environ set_resources default_rst default_clk
           _build_dir _name_map extra_files];
      split; [exists []; split; [apply Hnil|cbn; lia]|tauto]].
  cbn [self ports environ set_resources default_rst resources].
  destruct (default_rst (self w)) as [rst|] eqn:Hrst.
  - destruct (request rst _) as [[pin'|e] rm']; [destruct (pin_i pin')|];
      cbn [snd self ports environ set_resources default_rst default_clk
           _build_dir _name_map extra_files];
      (split; [exists [clk_i]; split; [done|cbn; lia]|tauto]).
  - destruct (bool_decide _);
      cbn [negb snd self ports environ set_resources set_default_rst default_rst
           default_clk _build_dir _name_map extra_files].
    + split; [exists [clk_i]; split; [done|cbn; lia]|tauto].
    + split; [exists [clk_i; rst_signal]; split;
              [by rewrite <- app_assoc|cbn; lia]|tauto].
Qed.
End Callback.

Lemma create_domain_failures_witness :
  default_clk (self {| self := Example.docker; ports := [rst_signal];
                       environ := ∅ |}) = Some (lit "clk")
  /\ create_missing_domain Example.request (lit "sync")
       {| self := Example.docker; ports := [rst_signal]; environ := ∅ |}
     = (Raise AssertionError,
        {| self := set_resources [lit "clk"] Example.docker;
           ports := [rst_signal; Example.clk_signal]; environ := ∅ |}).
Proof.
  split; [reflexivity|].
  destruct (create_domain_failures Example.request
              {| self := Example.docker; ports := [rst_signal]; environ := ∅ |}
              (lit "clk") eq_refl) as (_ & _ & H).
  apply (H Example.clk_pin [lit "clk"] Example.clk_signal); try reflexivity.
  apply (bool_decide_unpack _). vm_compute. exact I.
Defined.

(** ** The name of the default clock's port *)

Section ClockName.
Context {RM Resource : Type} `{EqDecision Resource}.
Variable lookup : pystr -> RM -> result Resource.
Variable port_entries : RM -> list (Resource * Pin).
Variable ios0_dir : Resource -> pystr.

Lemma first_port_name_skip (resource : Resource) (pre rest : list (Resource * Pin)) :
  Forall (fun e => e.1 <> resource) pre ->
  first_port_name ios0_dir resource (pre ++ rest)
  = first_port_name ios0_dir resource rest.
Proof.
  induction 1 as [|[res pin] pre Hne _ IH]; [done|].
  cbn [app first_port_name]. by rewrite decide_False.
Qed.

Lemma first_port_name_none (resource : Resource) (entries : list (Resource * Pin)) :
  Forall (fun e => e.1 <> resource) entries ->
  first_port_name ios0_dir resource entries = Raise AssertionError.
Proof.
  intros H. rewrite <- (app_nil_r entries). by rewrite first_port_name_skip.
Qed.

Lemma first_port_name_split (resource : Resource) (entries : list (Resource * Pin)) :
  Forall (fun e => e.1 <> resource) entries
  \/ exists pre pin rest,
       entries = pre ++ (resource, pin) :: rest
       /\ Forall (fun e => e.1 <> resource) pre.
Proof.
  induction entries as [|[res pin] entries IH]; [by left|].
  destruct (decide (res = resource)) as [->|Hne].
  - right. by exists [], pin, entries.
  - destruct IH as [IH|(pre & pin' & rest & -> & Hpre)].
    + left. by constructor.
    + right. exists ((res, pin) :: pre), pin', rest. split; [done|].
      by constructor.
Qed.

(** X16: the name of the default clock's port is read from the first
    requested port of the looked-up resource: its input signal when the
    resource's direction is ["i"], its output signal otherwise; ports of
    other resources in front of it are skipped.  Without a default clock
    the property raises [AttributeError], with a failing lookup that
    error, and when no requested port belongs to the resource
    [AssertionError]. *)
Theorem default_clk_name_first_port (p : Platform RM) :
  (default_clk p = None ->
   _default_clk_name lookup port_entries ios0_dir p = Raise AttributeError)
  /\ (forall clk e,
        default_clk p = Some clk ->
        lookup clk (resources p) = Raise e ->
        _default_clk_name lookup port_entries ios0_dir p = Raise e)
  /\ (forall clk resource,
        default_clk p = Some clk ->
        lookup clk (resources p) = Ok resource ->
        (Forall (fun e => e.1 <> resource) (port_entries (resources p))
         /\ _default_clk_name lookup port_entries ios0_dir p
            = Raise AssertionError)
        \/ exists pre pin rest,
             port_entries (resources p) = pre ++ (resource, pin) :: rest
             /\ Forall (fun e => e.1 <> resource) pre
             /\ _default_clk_name lookup port_entries ios0_dir p
                = (s <~ (if decide (ios0_dir resource = lit "i")
                         then pin_i pin else pin_o pin) ;;
                   Ok (sig_name s))).
Proof.
  unfold _default_clk_name. split; [|split].
  - by intros ->.
  - by intros clk e -> ->.
  - intros clk resource -> ->. cbn [rbind].
    destruct (first_port_name_split resource (port_entries (resources p)))
      as [Hnone|(pre & pin & rest & Heq & Hpre)].
    + left. split; [done|]. by apply first_port_name_none.
    + right. exists pre, pin, rest. split; [done|]. split; [done|].
      rewrite Heq, first_port_name_skip by done.
      cbn [first_port_name]. rewrite decide_True by done.
      by destruct (decide (ios0_dir resource = lit "i")).
Qed.
End ClockName.
